(** * Surat Event Info Assistant: the reply pipeline, embedded and verified

    A shallow embedding of [api/graph.py], [api/search.py] and [api/llm.py]:
    the safety gate and keyword classifier, source lookup with its
    provider fallback and de-duplication, the reply generator wrapper, the
    synthesize node and the three-node graph.

    Text is modelled as [string]; [lower] and [strip] follow Python's
    [str.lower] and [str.strip] on the ASCII range (characters outside it are
    left alone by [lower] and are never stripped).  The web-search clients
    and the chat-completion client are external: they are section variables
    that either raise or return, and every call to them is recorded in an
    event log.  Writes to the logger are not modelled.

    Where the truth of a statement for the program depends on the exact
    [str.lower], [str.strip] or slicing, the statement carries the hypothesis
    that the texts involved are ASCII ([ascii_text]); the statements without
    it hold for the program on every text. *)

From Stdlib Require Import ZArith Strings.String Strings.Ascii List Bool Lia.
From Stdlib Require Import Numbers.DecimalString.
From stdpp Require Import base decidable option list gmap strings.

Local Open Scope string_scope.
Local Open Scope Z_scope.

#[local] Arguments String.append : simpl nomatch.

(* ===================================================================== *)
(** ** Text: the [str] operations the pipeline uses *)
(* ===================================================================== *)

Module Text.

(** [c] is an ASCII upper-case letter. *)
Definition is_upper (c : ascii) : bool :=
  let n := nat_of_ascii c in (65 <=? n)%nat && (n <=? 90)%nat.

Definition lower_char (c : ascii) : ascii :=
  if is_upper c then ascii_of_nat (nat_of_ascii c + 32) else c.

(** [str.lower] *)
Fixpoint lower (s : string) : string :=
  match s with
  | EmptyString => EmptyString
  | String c s' => String (lower_char c) (lower s')
  end.

(** The characters [str.strip] removes: tab, line feed, vertical tab, form
    feed, carriage return, the four separators 0x1c-0x1f, and space. *)
Definition is_space (c : ascii) : bool :=
  let n := nat_of_ascii c in
  ((9 <=? n)%nat && (n <=? 13)%nat) || ((28 <=? n)%nat && (n <=? 32)%nat).

Definition is_empty (s : string) : bool :=
  match s with EmptyString => true | _ => false end.

(** [str.lstrip] *)
Fixpoint lstrip (s : string) : string :=
  match s with
  | EmptyString => EmptyString
  | String c s' => if is_space c then lstrip s' else s
  end.

(** [str.rstrip] *)
Fixpoint rstrip (s : string) : string :=
  match s with
  | EmptyString => EmptyString
  | String c s' =>
      let r := rstrip s' in
      if is_space c && is_empty r then EmptyString else String c r
  end.

(** [str.strip] *)
Definition strip (s : string) : string := lstrip (rstrip s).

(** [m in t] for two strings: [m] occurs in [t] as a contiguous substring. *)
Fixpoint str_in (m t : string) : bool :=
  String.prefix m t ||
  match t with
  | EmptyString => false
  | String _ t' => str_in m t'
  end.

(** [any(k in t for k in ks)] *)
Definition any_in (ks : list string) (t : string) : bool :=
  existsb (fun k => str_in k t) ks.

(** [s[:n]] for a non-negative [n]. *)
Fixpoint take (n : nat) (s : string) : string :=
  match n, s with
  | S n', String c s' => String c (take n' s')
  | _, _ => EmptyString
  end.

(** [sep.join(parts)] *)
Fixpoint join (sep : string) (parts : list string) : string :=
  match parts with
  | [] => EmptyString
  | [p] => p
  | p :: ps => p ++ sep ++ join sep ps
  end.

(** [str(i)] for a natural number. *)
Definition of_nat (n : nat) : string := NilEmpty.string_of_uint (Nat.to_uint n).

(** The newline character. *)
Definition nl : ascii := "010"%char.

(** [n] newlines in a row. *)
Fixpoint newlines (n : nat) : string :=
  match n with
  | O => EmptyString
  | S n' => String nl (newlines n')
  end.

(** What the scanner of [re.sub(r"\n{3,}", "\n\n", _)] emits for a maximal
    run of [n] newlines: the pattern matches the run when it has three or
    more, and the match is replaced by two. *)
Definition emit_run (n : nat) : string :=
  if (3 <=? n)%nat then newlines 2 else newlines n.

(** [re.sub(r"\n{3,}", "\n\n", s)], as a left-to-right scan that carries the
    length [run] of the newline run it is in (the quantifier is greedy, so a
    match always covers a maximal run). *)
Fixpoint sub_newlines_from (run : nat) (s : string) : string :=
  match s with
  | EmptyString => emit_run run
  | String c s' =>
      if Ascii.eqb c nl then sub_newlines_from (S run) s'
      else emit_run run ++ String c (sub_newlines_from 0 s')
  end.

Definition sub_newlines (s : string) : string := sub_newlines_from 0 s.

(** *** Shapes of texts, for the statements below *)

(** [s] has no leading white space. *)
Definition no_lead (s : string) : Prop :=
  match s with
  | EmptyString => True
  | String c _ => is_space c = false
  end.

(** [s] is not empty and its last character is not white space. *)
Fixpoint ends_solid (s : string) : Prop :=
  match s with
  | EmptyString => False
  | String c EmptyString => is_space c = false
  | String _ s' => ends_solid s'
  end.

(** [s] does not begin with a newline. *)
Definition no_lead_nl (s : string) : Prop :=
  match s with
  | EmptyString => True
  | String c _ => c <> nl
  end.


End Text.

Abbreviation NL := (String Text.nl EmptyString).

(* ===================================================================== *)
(** ** Data model ([schemas.py], [config.py]) *)
(* ===================================================================== *)

(** [schemas.SourceItem] *)
Record SourceItem := mkSource { title : string; url : string }.

(** The fields of [config.Settings] the pipeline reads.  ([app_title],
    [api_prefix], [cors_allow_origins], [openai_timeout_s],
    [min_reply_items] and [log_level] are not read by any function below.) *)
Record Settings := mkSettings {
  openai_api_key : option string;
  openai_model : string;
  tavily_api_key : option string;
  search_max_results : Z;
  max_reply_items : Z
}.

(** Truth value of an [Optional[str]]: [None] and the empty string are false. *)
Definition truthy (o : option string) : bool :=
  match o with
  | Some s => negb (Text.is_empty s)
  | None => false
  end.

(** [o or d] where [d] is a string. *)
Definition or_str (o : option string) (d : string) : string :=
  match o with
  | Some s => if Text.is_empty s then d else s
  | None => d
  end.

(** [a or b] on two optional strings. *)
Definition or_opt (a b : option string) : option string :=
  if truthy a then a else b.

(** [l[:k]] for an integer [k]: a negative [k] counts from the end. *)
Definition slice_to {A} (k : Z) (l : list A) : list A :=
  if 0 <=? k then firstn (Z.to_nat k) l
  else firstn (length l - Z.to_nat (- k)) l.

(* ===================================================================== *)
(** ** Effects: exceptions and the log of calls *)
(* ===================================================================== *)

Inductive Exn :=
  | LLMConfigurationError (msg : string)
  | RuntimeError (msg : string)
  | ExternalError (what : string).

Inductive Node := Classify | Search | Synthesize.

Inductive Event :=
  | EvNode (n : Node)
  | EvTavily (api_key query : string) (max_results : Z)
  | EvDuckDuckGo (query : string) (max_results : Z)
  | EvGenerate (body : string) (subject sender : option string)
               (srcs : list SourceItem) (intent_label : string)
  | EvChat (model system_prompt user_prompt : string).

(** A computation logs the calls it makes and then raises or returns. *)
Definition M (A : Type) : Type := list Event * (Exn + A).

Definition ret {A} (x : A) : M A := ([], inr x).
Definition raise {A} (e : Exn) : M A := ([], inl e).
Definition emit (ev : Event) : M unit := ([ev], inr tt).

Definition bind {A B} (m : M A) (f : A -> M B) : M B :=
  match m with
  | (l, inl e) => (l, inl e)
  | (l, inr a) => let '(l', r) := f a in ((l ++ l')%list, r)
  end.

(** [try: m  except Exception as e: h e] *)
Definition try_except {A} (m : M A) (h : Exn -> M A) : M A :=
  match m with
  | (l, inl e) => let '(l', r) := h e in ((l ++ l')%list, r)
  | (l, inr a) => (l, inr a)
  end.

(** The result of a call into an external client, which raises (with a
    description of what it raised) or returns. *)
Definition of_external {A} (r : string + A) : M A :=
  match r with
  | inl what => raise (ExternalError what)
  | inr a => ret a
  end.

#[global] Instance M_ret : MRet M := @ret.
#[global] Instance M_bind : MBind M := fun A B f m => bind m f.

Definition events {A} (m : M A) : list Event := fst m.
Definition outcome {A} (m : M A) : Exn + A := snd m.

(* ===================================================================== *)
(** ** Source lookup ([search.py]) *)
(* ===================================================================== *)

(** [s.url.strip().lower()] *)
Definition source_key (s : SourceItem) : string := Text.lower (Text.strip (url s)).

(** [_dedupe_sources]: the loop body, with the [seen] set and the [deduped]
    list threaded through; [break] ends the recursion. *)
Fixpoint dedupe_loop (limit : Z) (seen : gset string) (deduped : list SourceItem)
    (sources : list SourceItem) : list SourceItem :=
  match sources with
  | [] => deduped
  | s :: rest =>
      let key := source_key s in
      if Text.is_empty key || bool_decide (key ∈ seen) then
        dedupe_loop limit seen deduped rest
      else
        let seen' := {[ key ]} ∪ seen in
        let deduped' := (deduped ++ [s])%list in
        if Z.of_nat (length deduped') >=? limit then deduped'
        else dedupe_loop limit seen' deduped' rest
  end.

Definition _dedupe_sources (sources : list SourceItem) (limit : Z) : list SourceItem :=
  dedupe_loop limit ∅ [] sources.

(** The sources of [l] whose key is not empty, not in [seen] and not the key
    of an earlier source of [l]: what the loop of [_dedupe_sources] collects
    when it is never cut short. *)
Fixpoint first_occurrences (seen : gset string) (l : list SourceItem) : list SourceItem :=
  match l with
  | [] => []
  | s :: rest =>
      if Text.is_empty (source_key s) || bool_decide (source_key s ∈ seen)
      then first_occurrences seen rest
      else s :: first_occurrences ({[ source_key s ]} ∪ seen) rest
  end.

(** One entry of a provider's result list: a dict whose keys may be missing
    or [None]. *)
Record RawResult := mkRaw {
  r_title : option string;
  r_url : option string;
  r_href : option string
}.

(** The loop of [_search_with_tavily] over [resp["results"]]. *)
Definition tavily_items (results : list RawResult) : list SourceItem :=
  flat_map (fun r =>
    let u := r_url r in
    let t := or_str (or_opt (r_title r) u) "Source" in
    match u with
    | Some u' => if Text.is_empty u' then [] else [mkSource t u']
    | None => []
    end) results.

(** The loop of [_search_with_duckduckgo] over [ddgs.text(...)]. *)
Definition duckduckgo_items (results : list RawResult) : list SourceItem :=
  flat_map (fun r =>
    let h := or_opt (r_href r) (r_url r) in
    let t := or_str (or_opt (r_title r) h) "Source" in
    match h with
    | Some h' => if Text.is_empty h' then [] else [mkSource t h']
    | None => []
    end) results.

Section Pipeline.

(** The process configuration, as [get_settings()] returns it. *)
Variable settings : Settings.

(** [TavilyClient(api_key).search(query, max_results)]: raises, or returns a
    response whose ["results"] entry may be absent. *)
Variable tavily_client : string -> string -> Z -> string + option (list RawResult).

(** [DDGS().text(query, max_results)]. *)
Variable ddgs_text : string -> Z -> string + list RawResult.

(** [OpenAI(api_key).chat.completions.create(model, messages)]: raises, or
    returns the content of the first choice, which may be [None]. *)
Variable openai_chat : string -> string -> string -> string -> string + option string.

Definition _search_with_tavily (query : string) (max_results : Z) (api_key : string)
    : M (list SourceItem * string) :=
  emit (EvTavily api_key query max_results) ;;
  resp ← of_external (tavily_client api_key query max_results) ;
  ret (tavily_items (default [] resp), "tavily").

Definition _search_with_duckduckgo (query : string) (max_results : Z)
    : M (list SourceItem * string) :=
  emit (EvDuckDuckGo query max_results) ;;
  rs ← of_external (ddgs_text query max_results) ;
  ret (duckduckgo_items rs, "duckduckgo").

Definition search_unavailable : string :=
  "Web search is currently unavailable. Please try again later, or configure TAVILY_API_KEY.".

(** The second half of [search_recent_surat_events]: the keyless provider. *)
Definition search_secondary (augmented_query : string) (limit : Z)
    : M (list SourceItem * string) :=
  try_except
    ('(sources, backend) ← _search_with_duckduckgo augmented_query limit ;
     ret (_dedupe_sources sources limit, backend))
    (fun _ => raise (RuntimeError search_unavailable)).

Definition search_recent_surat_events (query : string) (max_results : option Z)
    : M (list SourceItem * string) :=
  let limit := match max_results with Some n => n | None => search_max_results settings end in
  let augmented_query := Text.strip query ++ " Surat events recent 2025 2024" in
  if truthy (tavily_api_key settings) then
    (* the [return] inside the [try] leaves the function; falling out of the
       [try], or its [except], continues with the keyless provider *)
    r ← try_except
           ('(sources, backend) ←
               _search_with_tavily augmented_query limit (or_str (tavily_api_key settings) "") ;
            let sources := _dedupe_sources sources limit in
            ret (if negb (Nat.eqb (length sources) 0) then Some (sources, backend) else None))
           (fun _ => ret None) ;
    match r with
    | Some res => ret res
    | None => search_secondary augmented_query limit
    end
  else search_secondary augmented_query limit.

(* ===================================================================== *)
(** ** Reply generator ([llm.py]) *)
(* ===================================================================== *)

(** [enumerate(sources, start=i)] mapped to the numbered prompt lines. *)
Fixpoint prompt_lines (i : nat) (sources : list SourceItem) : list string :=
  match sources with
  | [] => []
  | s :: rest =>
      (Text.of_nat i ++ ". " ++ title s ++ " — " ++ url s) :: prompt_lines (S i) rest
  end.

Definition _format_sources_for_prompt (sources : list SourceItem) : string :=
  Text.join NL (prompt_lines 1 sources).

Definition system_prompt : string :=
  "You are a helpful assistant that drafts short email replies about recent events in Surat, India." ++ NL ++
  "Rules:" ++ NL ++
  "- Use ONLY the provided sources for factual claims." ++ NL ++
  "- Provide 2–4 concise bullet items (or fewer if not enough sources), each with a clickable link." ++ NL ++
  "- Be friendly and professional." ++ NL ++
  "- If sources are insufficient or unclear, apologize briefly and suggest what to ask next." ++ NL ++
  "- Avoid unsafe content, hate, harassment, or explicit content. If asked, refuse politely." ++ NL ++
  "- Do NOT invent dates, venues, or event details that are not in sources." ++ NL.

Definition user_prompt (body : string) (subject sender_email : option string)
    (sources : list SourceItem) (intent_label : string) : string :=
  let src_block := _format_sources_for_prompt sources in
  "Sender: " ++ or_str sender_email "unknown" ++ NL ++
  "Subject: " ++ or_str subject "" ++ NL ++
  "Detected intent: " ++ intent_label ++ NL ++ NL ++
  "User email body:" ++ NL ++ body ++ NL ++ NL ++
  "Sources:" ++ NL ++
  (if Text.is_empty src_block then "(no sources found)" else src_block) ++ NL ++ NL ++
  "Now draft the reply. Format:" ++ NL ++
  "Greeting line," ++ NL ++
  "2–4 bullet items with links," ++ NL ++
  "Closing line." ++ NL.

Definition llm_not_configured : string :=
  "OPENAI_API_KEY is not set. Configure OPENAI_API_KEY (and optionally OPENAI_MODEL) to enable replies.".

Definition generate_email_reply (body : string) (subject sender_email : option string)
    (sources : list SourceItem) (intent_label : string) : M (string * string) :=
  emit (EvGenerate body subject sender_email sources intent_label) ;;
  if negb (truthy (openai_api_key settings)) then
    raise (LLMConfigurationError llm_not_configured)
  else
    let sys := system_prompt in
    let usr := user_prompt body subject sender_email sources intent_label in
    (* the [try] only logs and re-raises *)
    emit (EvChat (openai_model settings) sys usr) ;;
    content ← of_external
      (openai_chat (or_str (openai_api_key settings) "") (openai_model settings) sys usr) ;
    let text := Text.strip (or_str content "") in
    if Text.is_empty text then raise (RuntimeError "LLM returned an empty response.")
    else ret (text, openai_model settings).

(* ===================================================================== *)
(** ** The graph ([graph.py]) *)
(* ===================================================================== *)

(** [GraphState], a [TypedDict] with [total=False]: every key may be absent.
    The dicts the nodes return have the same shape. *)
Record GraphState := mkState {
  body : option string;
  subject : option (option string);
  sender_email : option (option string);
  intent : option string;
  sources : option (list SourceItem);
  reply_text : option string;
  model : option string;
  search_backend : option string
}.

Definition empty_state : GraphState :=
  mkState None None None None None None None None.

(** The keyword lists of [_basic_intent_classifier], in the order of its tests. *)
Definition cultural_keywords : list string :=
  ["festival"; "garba"; "navratri"; "cultural"; "music"; "concert"; "art"; "exhibition"].
Definition tech_keywords : list string :=
  ["tech"; "startup"; "hackathon"; "conference"; "meetup"; "workshop"].
Definition sports_keywords : list string :=
  ["sports"; "marathon"; "cricket"; "football"; "tournament"].
Definition business_keywords : list string :=
  ["business"; "expo"; "trade fair"; "summit"; "industry"].

Definition _basic_intent_classifier (text : string) : string :=
  let t := Text.lower text in
  if Text.any_in cultural_keywords t then "cultural_events"
  else if Text.any_in tech_keywords t then "tech_events"
  else if Text.any_in sports_keywords t then "sports_events"
  else if Text.any_in business_keywords t then "business_events"
  else "general_events".

Definition unsafe_markers : list string :=
  ["how to make a bomb"; "buy drugs"; "child sexual"; "explicit sexual"; "kill"; "terrorist"].

Definition _contains_unsafe_request (text : string) : bool :=
  let t := Text.lower text in
  Text.any_in unsafe_markers t.

Definition _strip_excess_whitespace (s : string) : string :=
  Text.strip (Text.sub_newlines s).

Definition refusal_reply : string :=
  "Hi," ++ NL ++ NL ++
  "Sorry, I can’t help with that request. If you’re looking for information about public events in Surat, " ++
  "tell me what kind of events you’re interested in (culture, tech, business, sports) and your preferred dates." ++ NL ++ NL ++
  "Regards," ++ NL ++ "Surat Event Info Assistant".

Definition node_classify_intent (state : GraphState) : GraphState :=
  let body := default "" (body state) in
  if _contains_unsafe_request body then
    {| body := None; subject := None; sender_email := None;
       intent := Some "unsafe_request";
       sources := Some [];
       reply_text := Some refusal_reply;
       model := Some "none";
       search_backend := Some "none" |}
  else
    {| body := None; subject := None; sender_email := None;
       intent := Some (_basic_intent_classifier body);
       sources := None; reply_text := None; model := None; search_backend := None |}.

(** The query table of [node_search], with its [.get] default. *)
Definition intent_query (intent : string) : string :=
  if String.eqb intent "cultural_events" then "cultural events in Surat"
  else if String.eqb intent "tech_events" then "tech meetups workshops in Surat"
  else if String.eqb intent "sports_events" then "sports events tournaments in Surat"
  else if String.eqb intent "business_events" then "expos trade fairs business events in Surat"
  else if String.eqb intent "general_events" then "recent events in Surat"
  else if String.eqb intent "unsafe_request" then "recent events in Surat"
  else "recent events in Surat".

Definition node_search (state : GraphState) : M GraphState :=
  let intent := default "general_events" (intent state) in
  let body := default "" (body state) in
  let query := intent_query intent in
  let query := query ++ ". User request: " ++ Text.take 280 body in
  '(sources, backend) ← search_recent_surat_events query None ;
  ret {| body := None; subject := None; sender_email := None; intent := None;
         sources := Some sources; reply_text := None; model := None;
         search_backend := Some backend |}.

Definition insufficient_reply : string :=
  "Hi," ++ NL ++ NL ++
  "I couldn’t find enough reliable recent information about events in Surat right now. " ++
  "If you share the type of event (culture/tech/business/sports) and a date range (e.g., this weekend), " ++
  "I can try again." ++ NL ++ NL ++
  "Regards," ++ NL ++ "Surat Event Info Assistant".

(** The reply of the [except LLMConfigurationError] branch. *)
Definition degraded_reply (sources : list SourceItem) : string :=
  "Hi," ++ NL ++ NL ++
  "I found some sources, but the reply generator is not configured on this server yet. " ++
  "An administrator needs to set OPENAI_API_KEY." ++ NL ++ NL ++
  "Sources I found:" ++ NL ++
  Text.join NL (map (fun s => "- " ++ title s ++ ": " ++ url s) (firstn 4 sources)) ++
  NL ++ NL ++ "Regards," ++ NL ++ "Surat Event Info Assistant".

(** A dict with the two keys [reply_text] and [model]. *)
Definition reply_patch (reply model : string) : GraphState :=
  {| body := None; subject := None; sender_email := None; intent := None;
     sources := None; reply_text := Some reply; model := Some model;
     search_backend := None |}.

Definition node_synthesize (state : GraphState) : M GraphState :=
  if bool_decide (intent state = Some "unsafe_request") && truthy (reply_text state) then
    ret (reply_patch (default "" (reply_text state)) (default "none" (model state)))
  else
    let sources := default [] (sources state) in
    if (length sources <? 1)%nat then ret (reply_patch insufficient_reply "none")
    else
      let sources_for_llm := slice_to (Z.max (max_reply_items settings) 4) sources in
      try_except
        ('(reply_text, model) ←
            generate_email_reply
              (default "" (body state))
              (default None (subject state))
              (default None (sender_email state))
              sources_for_llm
              (default "general_events" (intent state)) ;
         ret (reply_patch (_strip_excess_whitespace reply_text) model))
        (fun e =>
           match e with
           | LLMConfigurationError _ => ret (reply_patch (degraded_reply sources) "none")
           | _ => raise e
           end).

(** How the compiled graph folds a node's returned dict into the running
    state: a key the node returned replaces the state's, every other key is
    kept. *)
Definition merge (state patch : GraphState) : GraphState :=
  let pick {A} (f : GraphState -> option A) : option A :=
    match f patch with Some v => Some v | None => f state end in
  {| body := pick body; subject := pick subject; sender_email := pick sender_email;
     intent := pick intent; sources := pick sources; reply_text := pick reply_text;
     model := pick model; search_backend := pick search_backend |}.

(** The router of the conditional edge out of [classify_intent]. *)
Definition route_after_classify (state : GraphState) : Node :=
  if bool_decide (intent state = Some "unsafe_request") then Synthesize else Search.

Definition run_node (n : Node) (state : GraphState) : M GraphState :=
  emit (EvNode n) ;;
  match n with
  | Classify => ret (node_classify_intent state)
  | Search => node_search state
  | Synthesize => node_synthesize state
  end.

(** The edges [build_reply_graph] adds; [None] is [END]. *)
Definition next_node (n : Node) (state : GraphState) : option Node :=
  match n with
  | Classify => Some (route_after_classify state)
  | Search => Some Synthesize
  | Synthesize => None
  end.

(** Run the graph from node [n]: run the node, merge what it returned, follow
    the edge.  [fuel] bounds the number of steps, as the graph runtime's
    recursion limit does. *)
Fixpoint run_from (fuel : nat) (n : Node) (state : GraphState) : M GraphState :=
  match fuel with
  | O => raise (ExternalError "GraphRecursionError")
  | S fuel' =>
      patch ← run_node n state ;
      let state' := merge state patch in
      match next_node n state' with
      | None => ret state'
      | Some n' => run_from fuel' n' state'
      end
  end.

Definition recursion_limit : nat := 25.

(** [build_reply_graph().invoke(state)]: the entry point is [classify_intent]. *)
Definition invoke (state : GraphState) : M GraphState :=
  run_from recursion_limit Classify state.

(** The state [create_reply] starts the graph from. *)
Definition request_state (body : string) (subject sender_email : option string) : GraphState :=
  {| body := Some (Text.strip body); subject := Some subject;
     sender_email := Some sender_email; intent := None; sources := None;
     reply_text := None; model := None; search_backend := None |}.

(* ===================================================================== *)
(** ** Vocabulary of the statements *)
(* ===================================================================== *)

(** The limit and the augmented query [search_recent_surat_events] uses. *)
Definition lookup_limit (max_results : option Z) : Z :=
  match max_results with Some n => n | None => search_max_results settings end.

Definition augmented (query : string) : string :=
  Text.strip query ++ " Surat events recent 2025 2024".

(** What the credentialed provider contributes: its de-duplicated sources
    when it is configured, returns, and they are not empty. *)
Definition primary_sources (query : string) (max_results : option Z)
    : option (list SourceItem) :=
  if truthy (tavily_api_key settings) then
    match tavily_client (or_str (tavily_api_key settings) "") (augmented query) (lookup_limit max_results) with
    | inl _ => None
    | inr resp =>
        match _dedupe_sources (tavily_items (default [] resp)) (lookup_limit max_results) with
        | [] => None
        | srcs => Some srcs
        end
    end
  else None.

(** The first test of [node_synthesize]: a refusal is already in the state. *)
Definition has_refusal (st : GraphState) : bool :=
  bool_decide (intent st = Some "unsafe_request") && truthy (reply_text st).

(** The call [node_synthesize] makes to the generator on state [st]. *)
Definition generator_call (st : GraphState) : Event :=
  EvGenerate (default "" (body st)) (default None (subject st))
    (default None (sender_email st))
    (slice_to (Z.max (max_reply_items settings) 4) (default [] (sources st)))
    (default "general_events" (intent st)).

(** The call the generator makes to the chat client on state [st]. *)
Definition chat_call (st : GraphState) : Event :=
  EvChat (openai_model settings) system_prompt
    (user_prompt (default "" (body st)) (default None (subject st))
       (default None (sender_email st))
       (slice_to (Z.max (max_reply_items settings) 4) (default [] (sources st)))
       (default "general_events" (intent st))).

(** What the chat client answers on state [st]. *)
Definition chat_answer (st : GraphState) : string + option string :=
  openai_chat (or_str (openai_api_key settings) "") (openai_model settings) system_prompt
    (user_prompt (default "" (body st)) (default None (subject st))
       (default None (sender_email st))
       (slice_to (Z.max (max_reply_items settings) 4) (default [] (sources st)))
       (default "general_events" (intent st))).

End Pipeline.

(** [w] occurs in [t]. *)
Definition occurs (w t : string) : Prop := exists pre post, t = pre ++ w ++ post.


(** Some word of [ks] occurs in [t] up to letter case: [t] has a substring
    whose lower-cased form is the word. *)
Definition occurs_nocase (ks : list string) (t : string) : Prop :=
  exists k w, In k ks /\ Text.lower w = k /\ occurs w t.

(** The dict [node_classify_intent] returns on a safe body. *)
Definition intent_patch (label : string) : GraphState :=
  {| body := None; subject := None; sender_email := None;
     intent := Some label;
     sources := None; reply_text := None; model := None; search_backend := None |}.

(** The dict [node_classify_intent] returns on an unsafe body. *)
Definition unsafe_patch : GraphState :=
  {| body := None; subject := None; sender_email := None;
     intent := Some "unsafe_request"; sources := Some [];
     reply_text := Some refusal_reply; model := Some "none";
     search_backend := Some "none" |}.

(** The event is a call to the generator. *)
Definition is_generate (e : Event) : bool :=
  match e with EvGenerate _ _ _ _ _ => true | _ => false end.





(** *** Sample configurations, clients and states (for the examples) *)

Module Samples.

(** The defaults of [get_settings()] with no key in the environment. *)
Definition cfg_no_keys : Settings := mkSettings None "gpt-4o-mini" None 6 4.

Definition cfg_keys : Settings :=
  mkSettings (Some "sk-test") "gpt-4o-mini" (Some "tvly-test") 6 4.

Definition tav_down : string -> string -> Z -> string + option (list RawResult) :=
  fun _ _ _ => inl "ConnectionError".

Definition ddg_two : string -> Z -> string + list RawResult :=
  fun _ _ =>
    inr [mkRaw (Some "Surat Garba Night") None (Some "https://events.example/garba");
         mkRaw None (Some "https://events.example/expo") None].

Definition tav_empty : string -> string -> Z -> string + option (list RawResult) :=
  fun _ _ _ => inr (Some []).

Definition ddg_empty : string -> Z -> string + list RawResult :=
  fun _ _ => inr [].

Definition chat_down : string -> string -> string -> string -> string + option string :=
  fun _ _ _ _ => inl "APITimeoutError".

Definition chat_says (t : string)
    : string -> string -> string -> string -> string + option string :=
  fun _ _ _ _ => inr (Some t).

Definition five_sources : list SourceItem :=
  [mkSource "One" "https://one.example/a"; mkSource "Two" "https://two.example/b";
   mkSource "Three" "https://three.example/c"; mkSource "Four" "https://four.example/d";
   mkSource "Five" "https://five.example/e"].

(** The state after a tech request has been classified and searched. *)
Definition searched (l : list SourceItem) : GraphState :=
  {| body := Some "Any tech meetups in Surat this week?"; subject := Some None;
     sender_email := Some None; intent := Some "tech_events"; sources := Some l;
     reply_text := None; model := None; search_backend := Some "duckduckgo" |}.

End Samples.

(* ===================================================================== *)
(** ** Configuration helpers ([config.py]) *)
(* ===================================================================== *)

(** [s.split(sep)] for a one-character separator: the pieces between the
    separators, empty pieces included; the empty text gives one empty piece. *)
Fixpoint split_on (sep : ascii) (s : string) : list string :=
  match s with
  | EmptyString => [EmptyString]
  | String c s' =>
      if Ascii.eqb c sep then EmptyString :: split_on sep s'
      else match split_on sep s' with
           | [] => [String c EmptyString]
           | p :: ps => String c p :: ps
           end
  end.

(** The comma. *)
Definition comma : ascii := ","%char.

(** [_get_bool]; [env] is the process environment read by [os.getenv]. *)
Definition _get_bool (env : gmap string string) (name : string) (default : bool) : bool :=
  match env !! name with
  | None => default
  | Some val =>
      bool_decide (Text.lower (Text.strip val) ∈ ["1"; "true"; "yes"; "y"; "on"])
  end.

(** [_get_list_csv] *)
Definition _get_list_csv (env : gmap string string) (name : string)
    (default : list string) : list string :=
  match env !! name with
  | None => default
  | Some val =>
      let items := map Text.strip (split_on comma val) in
      List.filter (fun s => negb (Text.is_empty s)) items
  end.

(** [w] contains no comma. *)
Fixpoint comma_free (w : string) : Prop :=
  match w with
  | EmptyString => True
  | String c w' => c <> comma /\ comma_free w'
  end.

(* ===================================================================== *)
(** ** The request boundary ([main.py]) *)
(* ===================================================================== *)

(** [schemas.ReplyRequest] *)
Record ReplyRequest := mkRequest {
  rq_sender_email : option string;
  rq_subject : option string;
  rq_body : string
}.

(** [schemas.ReplyResponse], without [latency_ms], which is a clock reading. *)
Record ReplyResponse := mkResponse {
  rs_reply_text : string;
  rs_sources : list SourceItem;
  rs_model : string
}.

(** [schemas.ErrorResponse] *)
Record ErrorResponse := mkError {
  error : string;
  message : string;
  request_id : option string
}.

(** A JSON object whose values are strings or [null]. *)
Abbreviation JsonObject := (gmap string (option string)).

(** [ErrorResponse.model_dump()] *)
Definition model_dump (e : ErrorResponse) : JsonObject :=
  {[ "error" := Some (error e); "message" := Some (message e);
     "request_id" := request_id e ]}.

(** The [detail] of an [HTTPException]: a dict, or a plain text. *)
Inductive Detail :=
  | DetailDict (d : JsonObject)
  | DetailText (s : string).

Record HTTPException := mkHTTP { status_code : Z; detail : Detail }.

(** [str(e)]: the message the exception carries; for an exception of an
    external client, the text it was recorded with. *)
Definition exn_message (e : Exn) : string :=
  match e with
  | LLMConfigurationError m => m
  | RuntimeError m => m
  | ExternalError m => m
  end.

(** The reply [create_reply] substitutes for an empty one. *)
Definition boundary_fallback : string :=
  "Hi," ++ NL ++ NL ++
  "Sorry — I couldn’t generate a reply right now. Please try again with more details." ++
  NL ++ NL ++ "Regards," ++ NL ++
  "Surat Event Info Assistant".

Section Boundary.

Variable settings : Settings.
Variable tavily_client : string -> string -> Z -> string + option (list RawResult).
Variable ddgs_text : string -> Z -> string + list RawResult.
Variable openai_chat : string -> string -> string -> string -> string + option string.

(** [create_reply]; [request_id] is the [x-request-id] header.  It raises an
    [HTTPException] or returns the response. *)
Definition create_reply (request_id : option string) (payload : ReplyRequest)
    : list Event * (HTTPException + ReplyResponse) :=
  if Text.is_empty (rq_body payload) || Text.is_empty (Text.strip (rq_body payload)) then
    ([], inl (mkHTTP 400 (DetailDict (model_dump
       (mkError "validation_error" "Field 'body' must be a non-empty string." request_id)))))
  else
    let state :=
      request_state (rq_body payload) (rq_subject payload) (rq_sender_email payload) in
    match invoke settings tavily_client ddgs_text openai_chat state with
    | (ev, inr result) =>
        let sources := default [] (sources result) in
        let reply_text := Text.strip (or_str (reply_text result) "") in
        let model := or_str (model result) "none" in
        let reply_text :=
          if Text.is_empty reply_text then boundary_fallback else reply_text in
        (ev, inr (mkResponse reply_text
                    (slice_to (max_reply_items settings) sources) model))
    | (ev, inl e) =>
        (ev, inl (mkHTTP 500 (DetailDict (model_dump
           (mkError "pipeline_error"
              (if Text.is_empty (exn_message e) then "Reply pipeline failed."
               else exn_message e)
              request_id)))))
    end.

(** [str(exc.detail)] for a dict is Python's rendering of the dict. *)
Variable dict_repr : JsonObject -> string.

Definition detail_str (d : Detail) : string :=
  match d with
  | DetailDict o => dict_repr o
  | DetailText s => s
  end.

(** [http_exception_handler]: the status and the JSON body of the response. *)
Definition http_exception_handler (request_id : option string) (exc : HTTPException)
    : Z * JsonObject :=
  match detail exc with
  | DetailDict d =>
      if bool_decide (is_Some (d !! "error")) && bool_decide (is_Some (d !! "message")) then
        let d' := match d !! "request_id" with
                  | Some _ => d
                  | None => <["request_id" := request_id]> d
                  end in
        (status_code exc, d')
      else
        (status_code exc,
         model_dump (mkError "http_error" (detail_str (detail exc)) request_id))
  | DetailText _ =>
      (status_code exc,
       model_dump (mkError "http_error" (detail_str (detail exc)) request_id))
  end.

(** [unhandled_exception_handler] *)
Definition unhandled_exception_handler (request_id : option string) : Z * JsonObject :=
  (500, model_dump (mkError "internal_error"
                      "An unexpected error occurred while processing the request."
                      request_id)).

End Boundary.

(* ===================================================================== *)
(** ** More vocabulary *)
(* ===================================================================== *)

(** Three newlines in a row. *)
Definition three_newlines : string := Text.newlines 3.

(** Scanning [s] with [run] newlines just read, no run of newlines reaches
    three. *)
Fixpoint runs_below_three (run : nat) (s : string) : Prop :=
  match s with
  | EmptyString => True
  | String c s' =>
      if Ascii.eqb c Text.nl then (run < 2)%nat /\ runs_below_three (S run) s'
      else runs_below_three 0 s'
  end.

(** The event is a call to an external client. *)
Definition is_external_call (e : Event) : bool :=
  match e with
  | EvTavily _ _ _ | EvDuckDuckGo _ _ | EvChat _ _ _ => true
  | _ => false
  end.


(** *** ASCII texts

    On a text of ASCII characters [Text.lower], [Text.strip] and [Text.take]
    are exactly [str.lower], [str.strip] and slicing.  Outside ASCII they
    are not (Python folds the case of other letters, strips other white
    space and counts characters, not bytes), so a statement whose truth for
    the program needs the exact operation is made for ASCII texts. *)









(** The six intent labels. *)
Definition intent_labels : list string :=
  ["cultural_events"; "tech_events"; "sports_events"; "business_events";
   "general_events"; "unsafe_request"].

(** *** More samples (for the examples of the further properties) *)

Module MoreSamples.


Definition no_repr : JsonObject -> string := fun _ => "{...}".

(** Three sources of which the first two share a URL up to case and blanks. *)
Definition src_a : SourceItem := mkSource "A" "http://X.example ".
Definition src_b : SourceItem := mkSource "B" " http://x.example".
Definition src_c : SourceItem := mkSource "C" "http://y.example".
Definition with_duplicate : list SourceItem := [src_a; src_b; src_c].

Definition tech_request : ReplyRequest :=
  mkRequest None None "Any tech meetups in Surat this week?".

Definition unsafe_request : ReplyRequest :=
  mkRequest (Some "someone@example.com") None " Where to BUY Drugs in Surat? ".

Definition blank_request : ReplyRequest := mkRequest None None "   ".

(** The final state of the run on [unsafe_request]. *)
Definition final_unsafe : GraphState :=
  {| body := Some "Where to BUY Drugs in Surat?"; subject := Some None;
     sender_email := Some (Some "someone@example.com");
     intent := Some "unsafe_request"; sources := Some [];
     reply_text := Some refusal_reply; model := Some "none";
     search_backend := Some "none" |}.

(** The final state of the run on [tech_request] when both providers find
    nothing. *)
Definition final_no_sources : GraphState :=
  {| body := Some "Any tech meetups in Surat this week?"; subject := Some None;
     sender_email := Some None; intent := Some "tech_events";
     sources := Some []; reply_text := Some insufficient_reply;
     model := Some "none"; search_backend := Some "duckduckgo" |}.

(** The query [node_search] builds for [tech_request]. *)
Definition tech_query : string :=
  "tech meetups workshops in Surat. User request: Any tech meetups in Surat this week?".


(** Three distinct results. *)
Definition ddg_three : string -> Z -> string + list RawResult :=
  fun _ _ =>
    inr [mkRaw (Some "Garba Night") None (Some "https://events.example/garba");
         mkRaw (Some "Textile Expo") None (Some "https://events.example/expo");
         mkRaw (Some "Surat Marathon") None (Some "https://events.example/run")].

Definition three_sources : list SourceItem :=
  [mkSource "Garba Night" "https://events.example/garba";
   mkSource "Textile Expo" "https://events.example/expo";
   mkSource "Surat Marathon" "https://events.example/run"].

(** No key at all, and at most two sources in a response. *)
Definition cfg_two_items : Settings := mkSettings None "gpt-4o-mini" None 6 2.


End MoreSamples.

(* ===================================================================== *)
(** ** Facts about the text operations *)
(* ===================================================================== *)

Module TextFacts.
Import Text.

Lemma app_assoc_s (a b c : string) : (a ++ b) ++ c = a ++ b ++ c.
Proof. induction a as [|x a IH]; simpl; [reflexivity | now rewrite IH]. Qed.

Lemma app_empty_r (a : string) : a ++ "" = a.
Proof. induction a as [|x a IH]; simpl; [reflexivity | now rewrite IH]. Qed.

Lemma lower_app (a b : string) : lower (a ++ b) = lower a ++ lower b.
Proof. induction a as [|x a IH]; simpl; [reflexivity | now rewrite IH]. Qed.

Lemma prefix_spec (m t : string) :
  String.prefix m t = true <-> exists post, t = m ++ post.
Proof.
  revert t. induction m as [|c m IH]; intros t.
  - split; [intros _; now exists t | intros _; now destruct t].
  - destruct t as [|d t]; simpl.
    + split; [discriminate | intros [post H]; discriminate].
    + destruct (ascii_dec c d) as [->|Hne].
      * rewrite IH. split; intros [post H]; exists post; [now subst | now inversion H].
      * split; [discriminate | intros [post H]; inversion H; congruence].
Qed.

Lemma str_in_nil (m : string) : str_in m "" = String.prefix m "" || false.
Proof. reflexivity. Qed.

Lemma str_in_cons (m : string) (d : ascii) (t : string) :
  str_in m (String d t) = String.prefix m (String d t) || str_in m t.
Proof. reflexivity. Qed.

(** [str_in] decides the substring relation. *)
Lemma str_in_spec (m t : string) :
  str_in m t = true <-> exists pre post, t = pre ++ m ++ post.
Proof.
  induction t as [|d t IH].
  - rewrite str_in_nil, orb_false_r, prefix_spec. split.
    + intros [post H]. now exists "", post.
    + intros [pre [post H]]. destruct pre; [now exists post | discriminate].
  - rewrite str_in_cons, orb_true_iff, IH, prefix_spec. split.
    + intros [[post H] | [pre [post H]]].
      * now exists "", post.
      * exists (String d pre), post. simpl. now rewrite H.
    + intros [pre [post H]]. destruct pre as [|x pre]; simpl in H.
      * left. now exists post.
      * right. exists pre, post. now inversion H.
Qed.

Lemma any_in_spec (ks : list string) (t : string) :
  any_in ks t = true <-> exists k, In k ks /\ exists pre post, t = pre ++ k ++ post.
Proof.
  unfold any_in. rewrite existsb_exists.
  split; intros [k [Hin H]]; exists k; (split; [exact Hin | now apply str_in_spec]).
Qed.

Lemma str_in_app_mid (pre m post : string) : str_in m (pre ++ m ++ post) = true.
Proof. apply str_in_spec. now exists pre, post. Qed.

Lemma str_in_trans (a b c : string) :
  str_in a b = true -> str_in b c = true -> str_in a c = true.
Proof.
  rewrite !str_in_spec. intros [p1 [q1 ->]] [p2 [q2 ->]].
  exists (p2 ++ p1), (q1 ++ q2). now rewrite !app_assoc_s.
Qed.

(** Every part of a joined text occurs in it. *)
Lemma str_in_join (sep p : string) (parts : list string) :
  In p parts -> str_in p (join sep parts) = true.
Proof.
  induction parts as [|q parts IH]; [intros [] |].
  intros [-> | Hin].
  - destruct parts as [|q' parts]; simpl.
    + apply str_in_spec. exists "", "". now rewrite app_empty_r.
    + apply str_in_spec. now exists "", (sep ++ join sep (q' :: parts)).
  - specialize (IH Hin). destruct parts as [|q' parts]; [destruct Hin |].
    change (join sep (q :: q' :: parts)) with (q ++ sep ++ join sep (q' :: parts)).
    apply str_in_spec in IH. destruct IH as [pre [post ->]].
    apply str_in_spec. exists (q ++ sep ++ pre), post. now rewrite !app_assoc_s.
Qed.

(** *** Stripping *)

Lemma is_empty_true (s : string) : is_empty s = true <-> s = "".
Proof. destruct s; simpl; split; congruence. Qed.

Lemma is_empty_false (s : string) : is_empty s = false <-> s <> "".
Proof. destruct s; simpl; split; congruence. Qed.

Lemma lstrip_no_lead (s : string) : no_lead (lstrip s).
Proof.
  induction s as [|c s IH]; simpl; [exact I |].
  destruct (is_space c) eqn:E; [exact IH | exact E].
Qed.

Lemma lstrip_id (s : string) : no_lead s -> lstrip s = s.
Proof. destruct s as [|c s]; simpl; [reflexivity | now intros ->]. Qed.

Lemma rstrip_ends (s : string) : rstrip s = "" \/ ends_solid (rstrip s).
Proof.
  induction s as [|c s IH]; simpl; [now left |].
  destruct (is_space c) eqn:Ec; simpl.
  - destruct (rstrip s) as [|d r] eqn:Er; simpl; [now left |].
    right. destruct IH as [IH | IH]; [discriminate | exact IH].
  - right. destruct (rstrip s) as [|d r] eqn:Er; [exact Ec |].
    destruct IH as [IH | IH]; [discriminate | exact IH].
Qed.

Lemma rstrip_id (s : string) : ends_solid s -> rstrip s = s.
Proof.
  induction s as [|c s IH]; simpl; [intros [] |].
  destruct s as [|d s'].
  - intros ->. reflexivity.
  - intros H. rewrite (IH H). now rewrite andb_false_r.
Qed.

Lemma ends_solid_lstrip (s : string) :
  ends_solid s -> ends_solid (lstrip s).
Proof.
  induction s as [|c s IH]; [intros [] |].
  intros H. simpl lstrip. destruct (is_space c) eqn:Ec; [| exact H].
  destruct s as [|d s']; [simpl in H; congruence | apply IH; exact H].
Qed.

(** A stripped text is empty, or starts and ends with a solid character. *)
Lemma strip_shape (s : string) :
  strip s = "" \/ (no_lead (strip s) /\ ends_solid (strip s)).
Proof.
  unfold strip. destruct (rstrip_ends s) as [-> | H]; [now left |].
  right. split; [apply lstrip_no_lead | now apply ends_solid_lstrip].
Qed.

Lemma strip_id (s : string) : no_lead s -> ends_solid s -> strip s = s.
Proof. intros H1 H2. unfold strip. rewrite (rstrip_id _ H2). now apply lstrip_id. Qed.

Lemma ends_solid_app (a b : string) : ends_solid b -> ends_solid (a ++ b).
Proof.
  intros Hb. induction a as [|c a IH]; simpl; [exact Hb |].
  destruct (a ++ b) eqn:E; [destruct IH | exact IH].
Qed.

Lemma ends_solid_cons (c : ascii) (s : string) : ends_solid s -> ends_solid (String c s).
Proof. intros H. destruct s; [destruct H | exact H]. Qed.

(** *** The newline substitution *)

Lemma is_space_nl : is_space nl = true.
Proof. reflexivity. Qed.





Lemma emit_run_nonempty (r : nat) : r <> O -> emit_run r <> "".
Proof.
  unfold emit_run. destruct (3 <=? r)%nat; [discriminate |].
  destruct r; [congruence | discriminate].
Qed.

Lemma ends_solid_sub_newlines_from (r : nat) (s : string) :
  ends_solid s -> ends_solid (sub_newlines_from r s).
Proof.
  revert r. induction s as [|c s IH]; intros r; [intros [] |].
  intros H. simpl sub_newlines_from.
  destruct (Ascii.eqb c nl) eqn:Ec.
  - apply Ascii.eqb_eq in Ec. subst c.
    destruct s as [|d s']; [simpl in H; rewrite is_space_nl in H; discriminate |].
    apply IH. exact H.
  - apply ends_solid_app. destruct s as [|d s'].
    + simpl. simpl in H. unfold emit_run. simpl. exact H.
    + apply ends_solid_cons. apply IH. exact H.
Qed.

Lemma no_lead_sub_newlines (s : string) : no_lead s -> no_lead (sub_newlines s).
Proof.
  destruct s as [|c s]; [intros _; exact I |].
  simpl. intros H. unfold sub_newlines. simpl.
  destruct (Ascii.eqb c nl) eqn:Ec.
  - apply Ascii.eqb_eq in Ec. subst c. rewrite is_space_nl in H. discriminate.
  - simpl. exact H.
Qed.

(** On a text that is already stripped, the newline substitution leaves
    nothing for the final [strip] to remove. *)
Lemma strip_sub_newlines_strip (x : string) :
  strip (sub_newlines (strip x)) = sub_newlines (strip x).
Proof.
  destruct (strip_shape x) as [-> | [H1 H2]]; [reflexivity |].
  apply strip_id; [now apply no_lead_sub_newlines | now apply ends_solid_sub_newlines_from].
Qed.

Lemma ends_solid_nonempty (s : string) : ends_solid s -> s <> "".
Proof. destruct s; [intros [] | discriminate]. Qed.

Lemma sub_newlines_strip_nonempty (x : string) :
  strip x <> "" -> sub_newlines (strip x) <> "".
Proof.
  intros H. destruct (strip_shape x) as [E | [_ H2]]; [contradiction |].
  apply ends_solid_nonempty. now apply ends_solid_sub_newlines_from.
Qed.

End TextFacts.

(* ===================================================================== *)
(** ** De-duplication *)
(* ===================================================================== *)

Module DedupeFacts.

Lemma dedupe_loop_firstn (limit : Z) (l : list SourceItem) :
  forall seen acc,
    dedupe_loop limit seen acc l
    = (acc ++ firstn (Z.to_nat (Z.max (limit - Z.of_nat (length acc)) 1))
                     (first_occurrences seen l))%list.
Proof.
  induction l as [|s rest IH]; intros seen acc; simpl.
  - now rewrite firstn_nil, app_nil_r.
  - destruct (Text.is_empty (source_key s) || bool_decide (source_key s ∈ seen)).
    + apply IH.
    + rewrite length_app. simpl length.
      destruct (Z.geb_spec (Z.of_nat (length acc + 1)) limit) as [Hge | Hlt].
      * replace (Z.to_nat (Z.max (limit - Z.of_nat (length acc)) 1)) with 1%nat by lia.
        reflexivity.
      * rewrite IH, length_app. simpl length. rewrite <- app_assoc. simpl.
        replace (Z.to_nat (Z.max (limit - Z.of_nat (length acc)) 1))
          with (S (Z.to_nat (Z.max (limit - Z.of_nat (length acc + 1)) 1))) by lia.
        reflexivity.
Qed.

(** [_dedupe_sources] returns the first [max(limit, 1)] first occurrences. *)
Lemma dedupe_sources_firstn (l : list SourceItem) (limit : Z) :
  _dedupe_sources l limit
  = firstn (Z.to_nat (Z.max limit 1)) (first_occurrences ∅ l).
Proof.
  unfold _dedupe_sources. rewrite dedupe_loop_firstn. simpl.
  now rewrite Z.sub_0_r.
Qed.

Lemma first_occurrences_sublist (l : list SourceItem) :
  forall seen, sublist (first_occurrences seen l) l.
Proof.
  induction l as [|s rest IH]; intros seen; simpl; [constructor |].
  destruct (Text.is_empty (source_key s) || bool_decide (source_key s ∈ seen)).
  - apply sublist_cons, IH.
  - apply sublist_skip, IH.
Qed.

Lemma first_occurrences_fresh (l : list SourceItem) :
  forall seen s, In s (first_occurrences seen l) ->
    source_key s <> "" /\ source_key s ∉ seen.
Proof.
  induction l as [|x rest IH]; intros seen s; simpl; [intros [] |].
  destruct (Text.is_empty (source_key x)) eqn:Ee; simpl.
  - apply IH.
  - case_bool_decide as Hin; [apply IH |].
    intros [<- | H].
    + split; [now apply TextFacts.is_empty_false | exact Hin].
    + destruct (IH _ _ H) as [H1 H2]. split; [exact H1 |].
      intros Hc. apply H2, elem_of_union. now right.
Qed.

Lemma first_occurrences_NoDup (l : list SourceItem) :
  forall seen, NoDup (map source_key (first_occurrences seen l)).
Proof.
  induction l as [|x rest IH]; intros seen; simpl; [constructor |].
  destruct (Text.is_empty (source_key x) || bool_decide (source_key x ∈ seen));
    [apply IH |].
  simpl. constructor; [| apply IH].
  intros Hin. apply list_elem_of_In, in_map_iff in Hin. destruct Hin as [y [Hk Hy]].
  apply first_occurrences_fresh in Hy. destruct Hy as [_ Hy].
  rewrite Hk in Hy. apply Hy, elem_of_union. left. now apply elem_of_singleton.
Qed.


Lemma In_firstn {A} (n : nat) (l : list A) (x : A) : In x (firstn n l) -> In x l.
Proof.
  revert n. induction l as [|y l IH]; intros [|n]; simpl; try tauto.
  intros [H | H]; [now left | right; now apply (IH n)].
Qed.

(** The output of [_dedupe_sources] is a subsequence of its input. *)
Lemma dedupe_sources_sublist (l : list SourceItem) (limit : Z) :
  sublist (_dedupe_sources l limit) l.
Proof.
  rewrite dedupe_sources_firstn.
  etransitivity; [apply sublist_take | apply first_occurrences_sublist].
Qed.

(** Its keys are pairwise different, and none is empty. *)
Lemma dedupe_sources_keys (l : list SourceItem) (limit : Z) :
  NoDup (map source_key (_dedupe_sources l limit)) /\
  forall s, In s (_dedupe_sources l limit) -> source_key s <> "".
Proof.
  rewrite dedupe_sources_firstn. split.
  - rewrite <- firstn_map.
    eapply sublist_NoDup; [apply first_occurrences_NoDup | apply sublist_take].
  - intros s Hs. apply In_firstn in Hs.
    now apply first_occurrences_fresh in Hs.
Qed.

(** With a limit of at least one, the output is no longer than the limit. *)
Lemma dedupe_sources_length (l : list SourceItem) (limit : Z) :
  1 <= limit -> Z.of_nat (length (_dedupe_sources l limit)) <= limit.
Proof.
  intros H. rewrite dedupe_sources_firstn.
  pose proof (firstn_le_length (Z.to_nat (Z.max limit 1)) (first_occurrences ∅ l)).
  lia.
Qed.

End DedupeFacts.

(* ===================================================================== *)
(** ** The safety gate and the classifier *)
(* ===================================================================== *)

Lemma occurs_str_in (w t : string) : occurs w t <-> Text.str_in w t = true.
Proof. symmetry. apply TextFacts.str_in_spec. Qed.

Lemma occurs_refl (w : string) : occurs w w.
Proof. exists "", "". simpl. now rewrite TextFacts.app_empty_r. Qed.

Lemma occurs_prepend (a w t : string) : occurs w t -> occurs w (a ++ t).
Proof.
  intros [pre [post ->]]. exists (a ++ pre), post. now rewrite TextFacts.app_assoc_s.
Qed.

Lemma occurs_append (b w t : string) : occurs w t -> occurs w (t ++ b).
Proof.
  intros [pre [post ->]]. exists pre, (post ++ b). now rewrite !TextFacts.app_assoc_s.
Qed.

Lemma occurs_trans (a b c : string) : occurs a b -> occurs b c -> occurs a c.
Proof. rewrite !occurs_str_in. apply TextFacts.str_in_trans. Qed.

Lemma lower_split (t x y : string) :
  Text.lower t = x ++ y ->
  exists t1 t2, t = t1 ++ t2 /\ Text.lower t1 = x /\ Text.lower t2 = y.
Proof.
  revert t. induction x as [|c x IH]; intros t H.
  - now exists "", t.
  - destruct t as [|d t]; [discriminate |].
    simpl in H. inversion H as [[Hc Ht]].
    destruct (IH _ Ht) as [t1 [t2 [-> [H1 H2]]]].
    exists (String d t1), t2. simpl. now rewrite H1, H2.
Qed.

(** The scan [any(k in text.lower() for k in ks)] decides it. *)
Lemma occurs_nocase_any_in (ks : list string) (t : string) :
  occurs_nocase ks t <-> Text.any_in ks (Text.lower t) = true.
Proof.
  rewrite TextFacts.any_in_spec. split.
  - intros [k [w [Hin [Hw [pre [post ->]]]]]].
    exists k. split; [exact Hin |].
    exists (Text.lower pre), (Text.lower post).
    now rewrite !TextFacts.lower_app, Hw.
  - intros [k [Hin [pre [post H]]]].
    destruct (lower_split _ _ _ H) as [t1 [t2 [-> [H1 H2]]]].
    destruct (lower_split _ _ _ H2) as [w [t3 [-> [H3 H4]]]].
    exists k, w. split; [exact Hin |]. split; [exact H3 |]. now exists t1, t3.
Qed.



Lemma classify_unsafe (st : GraphState) :
  _contains_unsafe_request (default "" (body st)) = true ->
  node_classify_intent st = unsafe_patch.
Proof. intros H. unfold node_classify_intent. now rewrite H. Qed.

Lemma classify_safe (st : GraphState) :
  _contains_unsafe_request (default "" (body st)) = false ->
  node_classify_intent st =
    {| body := None; subject := None; sender_email := None;
       intent := Some (_basic_intent_classifier (default "" (body st)));
       sources := None; reply_text := None; model := None; search_backend := None |}.
Proof. intros H. unfold node_classify_intent. now rewrite H. Qed.

(** *** Markers and the boundary's [strip] *)

Lemma lower_char_space (c : ascii) : Text.is_space (Text.lower_char c) = Text.is_space c.
Proof. destruct c as [[] [] [] [] [] [] [] []]; reflexivity. Qed.

Lemma no_lead_lower (w : string) : Text.no_lead (Text.lower w) -> Text.no_lead w.
Proof. destruct w as [|c w]; simpl; [trivial | now rewrite lower_char_space]. Qed.

Lemma ends_solid_lower (w : string) : Text.ends_solid (Text.lower w) -> Text.ends_solid w.
Proof.
  induction w as [|c w IH]; [trivial |].
  destruct w as [|d w']; simpl in *; [now rewrite lower_char_space | exact IH].
Qed.

Lemma occurs_lstrip (w s : string) :
  Text.no_lead w -> occurs w s -> occurs w (Text.lstrip s).
Proof.
  intros Hw [pre [post ->]]. induction pre as [|c pre IH].
  - destruct w as [|d w]; [now exists "", (Text.lstrip post) |].
    simpl in *. rewrite Hw. now exists "", post.
  - simpl. destruct (Text.is_space c); [exact IH |].
    now exists (String c pre), post.
Qed.

Lemma rstrip_keeps_prefix (w post : string) :
  Text.ends_solid w -> exists post', Text.rstrip (w ++ post) = w ++ post'.
Proof.
  induction w as [|c w IH]; [intros [] |].
  destruct w as [|d w'].
  - simpl. intros ->. simpl. now exists (Text.rstrip post).
  - intros H. destruct (IH H) as [post' E].
    change (Text.rstrip (String c (String d w') ++ post))
      with (let r := Text.rstrip (String d w' ++ post) in
            if Text.is_space c && Text.is_empty r then EmptyString else String c r).
    rewrite E. cbv zeta. simpl. rewrite andb_false_r. now exists post'.
Qed.

Lemma occurs_rstrip (w s : string) :
  Text.ends_solid w -> occurs w s -> occurs w (Text.rstrip s).
Proof.
  intros Hw [pre [post ->]]. induction pre as [|c pre IH].
  - destruct (rstrip_keeps_prefix w post Hw) as [post' E].
    simpl. rewrite E. now exists "", post'.
  - destruct IH as [pre' [post' E]].
    change (Text.rstrip (String c pre ++ w ++ post))
      with (let r := Text.rstrip (pre ++ w ++ post) in
            if Text.is_space c && Text.is_empty r then EmptyString else String c r).
    rewrite E. cbv zeta.
    assert (Hne : Text.is_empty (pre' ++ w ++ post') = false).
    { destruct pre'; [| reflexivity]. destruct w; [destruct Hw | reflexivity]. }
    rewrite Hne, andb_false_r. now exists (String c pre'), post'.
Qed.

Lemma unsafe_markers_solid :
  Forall (fun k => Text.no_lead k /\ Text.ends_solid k) unsafe_markers.
Proof. repeat constructor. Qed.

(** The boundary strips the body before it starts the graph; a marker in the
    request body is still in the state's body. *)
Lemma unsafe_marker_survives_strip (b : string) (subject sender_email : option string) :
  occurs_nocase unsafe_markers b ->
  occurs_nocase unsafe_markers (default "" (body (request_state b subject sender_email))).
Proof.
  intros [k [w [Hin [Hw Hocc]]]]. exists k, w. split; [exact Hin |]. split; [exact Hw |].
  pose proof unsafe_markers_solid as Hs. rewrite Forall_forall in Hs.
  destruct (Hs k (proj2 (list_elem_of_In _ _) Hin)) as [H1 H2]. rewrite <- Hw in H1, H2.
  simpl. unfold Text.strip.
  apply occurs_lstrip; [now apply no_lead_lower |].
  apply occurs_rstrip; [now apply ends_solid_lower | exact Hocc].
Qed.

Section Run.

Variable cfg : Settings.
Variable tav : string -> string -> Z -> string + option (list RawResult).
Variable ddg : string -> Z -> string + list RawResult.
Variable chat : string -> string -> string -> string -> string + option string.

(** C1.  A body that contains an unsafe marker, in any letter case, makes the
    classify node return intent [unsafe_request] with the canned refusal;
    the router then goes to synthesize, the run visits the classify and
    synthesize nodes only (no search node, no provider call, no generator
    call), and [sources] is empty and [search_backend] is ["none"] after the
    classify node and in the final state. *)
Theorem unsafe_body_skips_search (st : GraphState) :
  occurs_nocase unsafe_markers (default "" (body st)) ->
  let p := node_classify_intent st in
  intent p = Some "unsafe_request" /\
  reply_text p = Some refusal_reply /\
  sources (merge st p) = Some [] /\
  search_backend (merge st p) = Some "none" /\
  route_after_classify (merge st p) = Synthesize /\
  exists final,
    invoke cfg tav ddg chat st = ([EvNode Classify; EvNode Synthesize], inr final) /\
    intent final = Some "unsafe_request" /\
    reply_text final = Some refusal_reply /\
    model final = Some "none" /\
    sources final = Some [] /\
    search_backend final = Some "none".
Proof.
  intros H. apply occurs_nocase_any_in in H.
  fold (_contains_unsafe_request (default "" (body st))) in H.
  assert (Hp : node_classify_intent st = unsafe_patch) by now apply classify_unsafe.
  cbv zeta. rewrite Hp.
  repeat (split; [reflexivity |]).
  eexists. split.
  - unfold invoke, recursion_limit. simpl run_from.
    unfold run_node. rewrite Hp. reflexivity.
  - repeat split.
Qed.

(** *** Source lookup *)

Lemma search_primary_some (query : string) (max_results : option Z) (srcs : list SourceItem) :
  primary_sources cfg tav query max_results = Some srcs ->
  outcome (search_recent_surat_events cfg tav ddg query max_results) = inr (srcs, "tavily").
Proof.
  unfold primary_sources, search_recent_surat_events, _search_with_tavily.
  fold (augmented query). fold (lookup_limit cfg max_results).
  destruct (truthy (tavily_api_key cfg)); [| discriminate].
  destruct (tav _ _ _) as [what | resp]; [discriminate |]. cbn.
  destruct (_dedupe_sources _ _) as [|x l]; [discriminate |].
  intros [= <-]. reflexivity.
Qed.

Lemma search_primary_none (query : string) (max_results : option Z) :
  primary_sources cfg tav query max_results = None ->
  outcome (search_recent_surat_events cfg tav ddg query max_results)
  = outcome (search_secondary ddg (augmented query) (lookup_limit cfg max_results)).
Proof.
  unfold primary_sources, search_recent_surat_events, _search_with_tavily.
  fold (augmented query). fold (lookup_limit cfg max_results).
  destruct (truthy (tavily_api_key cfg)); [| reflexivity].
  destruct (tav _ _ _) as [what | resp]; cbn.
  - intros _. now destruct (search_secondary _ _ _) as [l [e | r]].
  - destruct (_dedupe_sources _ _) as [|x l]; [| discriminate]. cbn.
    intros _. now destruct (search_secondary _ _ _) as [l' [e | r]].
Qed.

Lemma search_secondary_outcome (q : string) (limit : Z) :
  outcome (search_secondary ddg q limit)
  = match ddg q limit with
    | inl _ => inl (RuntimeError search_unavailable)
    | inr rs => inr (_dedupe_sources (duckduckgo_items rs) limit, "duckduckgo")
    end.
Proof.
  unfold search_secondary, _search_with_duckduckgo.
  now destruct (ddg q limit) as [what | rs].
Qed.

(** *** The synthesize node *)

Lemma synthesize_refusal (st : GraphState) :
  has_refusal st = true ->
  node_synthesize cfg chat st
  = ret (reply_patch (default "" (reply_text st)) (default "none" (model st))).
Proof. unfold has_refusal, node_synthesize. now intros ->. Qed.

Lemma synthesize_no_sources (st : GraphState) :
  has_refusal st = false -> default [] (sources st) = [] ->
  node_synthesize cfg chat st = ret (reply_patch insufficient_reply "none").
Proof. unfold has_refusal, node_synthesize. now intros -> ->. Qed.

(** The four ways the node ends once it has sources. *)
Lemma synthesize_with_sources (st : GraphState) :
  has_refusal st = false -> default [] (sources st) <> [] ->
  node_synthesize cfg chat st
  = if negb (truthy (openai_api_key cfg)) then
      ([generator_call cfg st],
       inr (reply_patch (degraded_reply (default [] (sources st))) "none"))
    else
      match chat_answer cfg chat st with
      | inl what => ([generator_call cfg st; chat_call cfg st], inl (ExternalError what))
      | inr content =>
          let text := Text.strip (or_str content "") in
          if Text.is_empty text then
            ([generator_call cfg st; chat_call cfg st],
             inl (RuntimeError "LLM returned an empty response."))
          else
            ([generator_call cfg st; chat_call cfg st],
             inr (reply_patch (_strip_excess_whitespace text) (openai_model cfg)))
      end.
Proof.
  unfold has_refusal, node_synthesize, generate_email_reply, generator_call,
    chat_call, chat_answer.
  intros -> Hs.
  destruct (default [] (sources st)) as [|x l] eqn:E; [congruence |].
  change (length (x :: l) <? 1)%nat with false. cbv iota.
  destruct (truthy (openai_api_key cfg)); [| reflexivity]. cbn.
  destruct (chat _ _ _ _) as [what | content]; [reflexivity |]. cbn.
  now destruct (Text.is_empty _).
Qed.

(** C6.  Without a refusal in the state and with no source, the synthesize
    node returns the fixed apology with generator identifier ["none"], and
    its log of calls is empty: the generator is not invoked. *)
Theorem no_sources_gives_apology (st : GraphState) :
  has_refusal st = false ->
  (length (default [] (sources st)) < 1)%nat ->
  node_synthesize cfg chat st = ([], inr (reply_patch insufficient_reply "none")) /\
  reply_text (reply_patch insufficient_reply "none") = Some insufficient_reply /\
  model (reply_patch insufficient_reply "none") = Some "none".
Proof.
  intros Hr Hlen. split; [| split; reflexivity].
  apply synthesize_no_sources; [exact Hr |].
  destruct (default [] (sources st)); [reflexivity | simpl in Hlen; lia].
Qed.

Lemma slice_to_max (m : Z) {A} (l : list A) :
  slice_to (Z.max m 4) l = firstn (Z.to_nat (Z.max m 4)) l.
Proof.
  unfold slice_to. destruct (Z.leb_spec 0 (Z.max m 4)); [reflexivity | lia].
Qed.

(** C7.  When the synthesize node reaches the generator (no refusal in the
    state, at least one source), it calls it once, and the sources it passes
    are the first [max(max_reply_items, 4)] of the state's sources: a bound
    that is never below 4, whatever [max_reply_items] is. *)
Theorem generator_receives_bounded_sources (st : GraphState) :
  has_refusal st = false -> default [] (sources st) <> [] ->
  let bound := Z.to_nat (Z.max (max_reply_items cfg) 4) in
  let passed := firstn bound (default [] (sources st)) in
  (4 <= bound)%nat /\
  (length passed <= bound)%nat /\
  exists rest,
    events (node_synthesize cfg chat st)
    = EvGenerate (default "" (body st)) (default None (subject st))
        (default None (sender_email st)) passed
        (default "general_events" (intent st)) :: rest /\
    forallb (fun e => negb (is_generate e)) rest = true.
Proof.
  intros Hr Hs bound passed. split; [subst bound; lia |].
  split; [apply firstn_le_length |].
  rewrite (synthesize_with_sources st Hr Hs).
  unfold generator_call. rewrite slice_to_max. fold bound. fold passed.
  destruct (negb (truthy (openai_api_key cfg))); [now exists [] |].
  destruct (chat_answer cfg chat st) as [what | content]; [now eexists |].
  cbv zeta. destruct (Text.is_empty _); now eexists.
Qed.

(** The URL of each of the first four sources occurs in the degraded reply. *)
Lemma degraded_reply_lists_first_four (srcs : list SourceItem) (s : SourceItem) :
  In s (firstn 4 srcs) -> occurs (url s) (degraded_reply srcs).
Proof.
  intros Hin. unfold degraded_reply.
  do 9 apply occurs_prepend. apply occurs_append.
  apply occurs_trans with (b := "- " ++ title s ++ ": " ++ url s).
  - do 3 apply occurs_prepend. apply occurs_refl.
  - apply occurs_str_in, TextFacts.str_in_join.
    apply in_map_iff. now exists s.
Qed.

(** C5, as the code has it.  Without a refusal in the state, with at least
    one source and no generation credential, the synthesize node returns (it
    does not raise) a reply with generator identifier ["none"]; the reply is
    the degraded listing, in which the URL of each of the first four sources
    occurs. *)
Theorem unconfigured_generator_degrades (st : GraphState) :
  has_refusal st = false -> default [] (sources st) <> [] ->
  truthy (openai_api_key cfg) = false ->
  exists p,
    outcome (node_synthesize cfg chat st) = inr p /\
    model p = Some "none" /\
    reply_text p = Some (degraded_reply (default [] (sources st))) /\
    forall s, In s (firstn 4 (default [] (sources st))) ->
      occurs (url s) (degraded_reply (default [] (sources st))).
Proof.
  intros Hr Hs Hk. rewrite (synthesize_with_sources st Hr Hs), Hk. cbn.
  eexists. split; [reflexivity |]. split; [reflexivity |]. split; [reflexivity |].
  intros s. apply degraded_reply_lists_first_four.
Qed.


Lemma degraded_reply_nonempty (srcs : list SourceItem) : degraded_reply srcs <> "".
Proof. unfold degraded_reply. simpl. discriminate. Qed.

(** C10.  Whenever the synthesize node returns, the reply text it returns is
    a non-empty string. *)
Theorem synthesize_reply_nonempty (st p : GraphState) :
  outcome (node_synthesize cfg chat st) = inr p ->
  exists r, reply_text p = Some r /\ r <> "".
Proof.
  destruct (has_refusal st) eqn:Hr.
  - rewrite (synthesize_refusal st Hr). intros [= <-].
    unfold has_refusal in Hr. apply andb_true_iff in Hr as [_ Ht].
    destruct (reply_text st) as [r |]; [| discriminate].
    exists r. split; [reflexivity |]. simpl in Ht.
    now destruct r.
  - destruct (default [] (sources st)) as [|x l] eqn:Hs.
    + rewrite (synthesize_no_sources st Hr Hs). intros [= <-].
      exists insufficient_reply. split; [reflexivity | discriminate].
    + assert (Hne : default [] (sources st) <> []) by now rewrite Hs.
      rewrite (synthesize_with_sources st Hr Hne).
      destruct (negb (truthy (openai_api_key cfg))).
      * intros [= <-]. eexists. split; [reflexivity | apply degraded_reply_nonempty].
      * destruct (chat_answer cfg chat st) as [what | content]; [discriminate |].
        cbv zeta. destruct (Text.is_empty _) eqn:He; [discriminate |].
        intros [= <-]. eexists. split; [reflexivity |].
        unfold _strip_excess_whitespace.
        rewrite TextFacts.strip_sub_newlines_strip.
        apply TextFacts.sub_newlines_strip_nonempty.
        now apply TextFacts.is_empty_false.
Qed.

(** *** Who writes [sources] and [search_backend] *)

Lemma synthesize_patch_shape (st p : GraphState) :
  outcome (node_synthesize cfg chat st) = inr p ->
  exists r m, p = reply_patch r m.
Proof.
  destruct (has_refusal st) eqn:Hr.
  - rewrite (synthesize_refusal st Hr). intros [= <-]. now eexists _, _.
  - destruct (default [] (sources st)) as [|x l] eqn:Hs.
    + rewrite (synthesize_no_sources st Hr Hs). intros [= <-]. now eexists _, _.
    + assert (Hne : default [] (sources st) <> []) by now rewrite Hs.
      rewrite (synthesize_with_sources st Hr Hne).
      destruct (negb (truthy (openai_api_key cfg))).
      * intros [= <-]. now eexists _, _.
      * destruct (chat_answer cfg chat st) as [what | content]; [discriminate |].
        cbv zeta. destruct (Text.is_empty _); [discriminate |].
        intros [= <-]. now eexists _, _.
Qed.


End Run.

(* ===================================================================== *)
(** ** The pipeline on concrete inputs *)
(* ===================================================================== *)

Import Samples.

(** C3.  The limit test of [_dedupe_sources] comes after the append, so with
    a limit of zero the loop still collects one source before it stops: the
    output is one entry long, which exceeds the requested limit. *)
Theorem dedupe_limit_zero_returns_one :
  _dedupe_sources [mkSource "A" "http://a.example"; mkSource "B" "http://b.example"] 0
    = [mkSource "A" "http://a.example"] /\
  0 < Z.of_nat (length (_dedupe_sources
        [mkSource "A" "http://a.example"; mkSource "B" "http://b.example"] 0)).
Proof.
  assert (E : _dedupe_sources [mkSource "A" "http://a.example"; mkSource "B" "http://b.example"] 0
              = [mkSource "A" "http://a.example"]) by (vm_compute; reflexivity).
  rewrite E. split; [reflexivity | simpl; lia].
Qed.

Lemma unsafe_body_skips_search_witness :
  occurs_nocase unsafe_markers "Where to BUY Drugs in Surat" /\
  exists final,
    invoke cfg_keys tav_down ddg_two chat_down
      (request_state "Where to BUY Drugs in Surat" None None)
    = ([EvNode Classify; EvNode Synthesize], inr final) /\
    sources final = Some [] /\ search_backend final = Some "none".
Proof.
  assert (H : occurs_nocase unsafe_markers
                (default "" (body (request_state "Where to BUY Drugs in Surat" None None)))).
  { exists "buy drugs", "BUY Drugs". split; [simpl; auto |]. split; [reflexivity |].
    exists "Where to ", " in Surat". reflexivity. }
  split; [exact H |].
  destruct (unsafe_body_skips_search cfg_keys tav_down ddg_two chat_down _ H)
    as (_ & _ & _ & _ & _ & final & Hrun & _ & _ & _ & Hs & Hb).
  exists final. split; [exact Hrun | split; assumption].
Defined.


Lemma unconfigured_generator_degrades_witness :
  exists p,
    outcome (node_synthesize cfg_no_keys chat_down (searched (firstn 2 five_sources))) = inr p /\
    model p = Some "none".
Proof.
  destruct (unconfigured_generator_degrades cfg_no_keys chat_down
              (searched (firstn 2 five_sources)))
    as [p [H1 [H2 _]]].
  - reflexivity.
  - simpl. discriminate.
  - reflexivity.
  - exists p. split; assumption.
Defined.

(** C5 as stated fails: with five sources and no generation credential the
    reply lists four, and the URL of the fifth does not occur in it. *)
Lemma degraded_reply_omits_fifth_source :
  exists p r,
    default [] (sources (searched five_sources)) = five_sources /\
    outcome (node_synthesize cfg_no_keys chat_down (searched five_sources)) = inr p /\
    model p = Some "none" /\
    reply_text p = Some r /\
    In (mkSource "Five" "https://five.example/e") five_sources /\
    ~ occurs "https://five.example/e" r.
Proof.
  eexists _, _. split; [reflexivity |]. split; [vm_compute; reflexivity |].
  split; [reflexivity |]. split; [reflexivity |].
  split; [simpl; auto 10 |].
  rewrite occurs_str_in. vm_compute. discriminate.
Qed.

Lemma no_sources_gives_apology_witness :
  node_synthesize cfg_keys chat_down (searched [])
  = ([], inr (reply_patch insufficient_reply "none")).
Proof.
  apply (no_sources_gives_apology cfg_keys chat_down (searched [])).
  - reflexivity.
  - simpl. lia.
Defined.

Lemma generator_receives_bounded_sources_witness :
  exists rest,
    events (node_synthesize (mkSettings (Some "sk-test") "gpt-4o-mini" None 6 1)
              chat_down (searched five_sources))
    = EvGenerate "Any tech meetups in Surat this week?" None None
        (firstn 4 five_sources) "tech_events" :: rest.
Proof.
  destruct (generator_receives_bounded_sources
              (mkSettings (Some "sk-test") "gpt-4o-mini" None 6 1)
              chat_down (searched five_sources))
    as (_ & _ & rest & H & _).
  - reflexivity.
  - simpl. discriminate.
  - exists rest. exact H.
Defined.



Lemma synthesize_reply_nonempty_witness :
  exists r, reply_text (reply_patch insufficient_reply "none") = Some r /\ r <> "".
Proof.
  apply (synthesize_reply_nonempty cfg_keys chat_down (searched [])).
  reflexivity.
Defined.


Example lower_ex : Text.lower "How To KILL time" = "how to kill time".
Proof. reflexivity. Qed.
Example strip_ex : Text.strip "  a b
 " = "a b".
Proof. reflexivity. Qed.
Example in_ex : Text.str_in "art" "party" = true.
Proof. reflexivity. Qed.
Example dedupe_ex :
  _dedupe_sources [mkSource "A" "http://X "; mkSource "B" " http://x"; mkSource "C" "y"] 5
  = [mkSource "A" "http://X "; mkSource "C" "y"].
Proof. vm_compute. reflexivity. Qed.

(** An unsafe request, end to end: the refusal, no source, no provider call. *)
Example run_unsafe :
  invoke cfg_keys tav_down ddg_two chat_down (request_state "how to make a bomb" None None)
  = ([EvNode Classify; EvNode Synthesize],
     inr {| body := Some "how to make a bomb"; subject := Some None;
            sender_email := Some None; intent := Some "unsafe_request";
            sources := Some []; reply_text := Some refusal_reply;
            model := Some "none"; search_backend := Some "none" |}).
Proof. vm_compute. reflexivity. Qed.

(** Both providers find nothing: the apology, with generator [none]. *)
Example run_no_sources :
  exists q,
    invoke cfg_keys tav_empty ddg_empty chat_down
      (request_state "Any tech meetups in Surat this week?" None None)
    = ([EvNode Classify; EvNode Search; EvTavily "tvly-test" q 6; EvDuckDuckGo q 6;
        EvNode Synthesize],
       inr {| body := Some "Any tech meetups in Surat this week?"; subject := Some None;
              sender_email := Some None; intent := Some "tech_events";
              sources := Some []; reply_text := Some insufficient_reply;
              model := Some "none"; search_backend := Some "duckduckgo" |}).
Proof. eexists. vm_compute. reflexivity. Qed.

(** The primary provider is down and the generator is not configured: the
    keyless provider's sources, listed in the degraded reply. *)
Example run_degraded :
  outcome (invoke (mkSettings None "gpt-4o-mini" (Some "tvly-test") 6 4)
             tav_down ddg_two chat_down
             (request_state "Any garba festival soon?" None None))
  = inr {| body := Some "Any garba festival soon?"; subject := Some None;
           sender_email := Some None; intent := Some "cultural_events";
           sources := Some [mkSource "Surat Garba Night" "https://events.example/garba";
                            mkSource "https://events.example/expo" "https://events.example/expo"];
           reply_text := Some (degraded_reply
                                 [mkSource "Surat Garba Night" "https://events.example/garba";
                                  mkSource "https://events.example/expo" "https://events.example/expo"]);
           model := Some "none"; search_backend := Some "duckduckgo" |}.
Proof. vm_compute. reflexivity. Qed.

(* ===================================================================== *)
(** ** Further properties: de-duplication *)
(* ===================================================================== *)

Lemma first_occurrences_first (l : list SourceItem) :
  forall seen s, In s (first_occurrences seen l) ->
    exists pre post, l = (pre ++ s :: post)%list /\
      forall x, In x pre -> source_key x <> source_key s.
Proof.
  induction l as [|x rest IH]; intros seen s; simpl; [intros [] |].
  destruct (Text.is_empty (source_key x)) eqn:Ee; simpl.
  - intros Hs. destruct (DedupeFacts.first_occurrences_fresh _ _ _ Hs) as [Hne _].
    destruct (IH _ _ Hs) as [pre [post [-> Hpre]]].
    exists (x :: pre), post. split; [reflexivity |].
    intros y [<- | Hy]; [| now apply Hpre].
    apply TextFacts.is_empty_true in Ee. congruence.
  - case_bool_decide as Hx.
    + intros Hs. destruct (DedupeFacts.first_occurrences_fresh _ _ _ Hs) as [_ Hns].
      destruct (IH _ _ Hs) as [pre [post [-> Hpre]]].
      exists (x :: pre), post. split; [reflexivity |].
      intros y [<- | Hy]; [congruence | now apply Hpre].
    + intros [<- | Hs].
      * exists [], rest. split; [reflexivity | intros y []].
      * destruct (DedupeFacts.first_occurrences_fresh _ _ _ Hs) as [_ Hns].
        destruct (IH _ _ Hs) as [pre [post [-> Hpre]]].
        exists (x :: pre), post. split; [reflexivity |].
        intros y [<- | Hy]; [| now apply Hpre].
        intros E. apply Hns, elem_of_union. left. now apply elem_of_singleton.
Qed.


(** On a list whose keys are non-empty, pairwise different and not in
    [seen], nothing is dropped. *)
Lemma first_occurrences_id (l : list SourceItem) :
  forall seen,
    NoDup (map source_key l) ->
    (forall s, In s l -> source_key s <> "" /\ source_key s ∉ seen) ->
    first_occurrences seen l = l.
Proof.
  induction l as [|x rest IH]; intros seen Hnd Hok; simpl; [reflexivity |].
  destruct (Hok x (or_introl eq_refl)) as [Hne Hns].
  apply TextFacts.is_empty_false in Hne. rewrite Hne. simpl.
  rewrite bool_decide_eq_false_2 by exact Hns.
  simpl in Hnd. apply NoDup_cons in Hnd as [Hx Hnd].
  f_equal. apply IH; [exact Hnd |].
  intros s Hs. destruct (Hok s (or_intror Hs)) as [H1 H2]. split; [exact H1 |].
  intros Hc. apply elem_of_union in Hc as [Hc | Hc]; [| contradiction].
  apply elem_of_singleton in Hc. apply Hx. rewrite <- Hc.
  apply list_elem_of_In, in_map. exact Hs.
Qed.

(** X1.  Whatever the limit, the output of [_dedupe_sources] is a
    subsequence of its input, its normalised URLs are pairwise different,
    and none of them is empty. *)
Theorem dedupe_output_clean_subsequence (l : list SourceItem) (limit : Z) :
  sublist (_dedupe_sources l limit) l /\
  NoDup (map source_key (_dedupe_sources l limit)) /\
  Forall (fun s => Text.is_empty (source_key s) = false) (_dedupe_sources l limit).
Proof.
  split; [apply DedupeFacts.dedupe_sources_sublist |].
  destruct (DedupeFacts.dedupe_sources_keys l limit) as [H1 H2].
  split; [exact H1 |].
  apply Forall_forall. intros s Hs. apply TextFacts.is_empty_false, H2.
  now apply list_elem_of_In.
Qed.

(** X2.  De-duplicating twice with the same limit changes nothing more. *)
Theorem dedupe_idempotent (l : list SourceItem) (limit : Z) :
  _dedupe_sources (_dedupe_sources l limit) limit = _dedupe_sources l limit.
Proof.
  rewrite (DedupeFacts.dedupe_sources_firstn (_dedupe_sources l limit)).
  rewrite first_occurrences_id.
  - rewrite DedupeFacts.dedupe_sources_firstn, firstn_firstn. now rewrite Nat.min_id.
  - apply DedupeFacts.dedupe_sources_keys.
  - intros s Hs. split; [now apply (DedupeFacts.dedupe_sources_keys l limit) |].
    apply not_elem_of_empty.
Qed.

(** X3.  Every source [_dedupe_sources] returns is the first of the input
    with its normalised URL: no earlier source has the same one. *)
Theorem dedupe_keeps_first_occurrence (l : list SourceItem) (limit : Z) (s : SourceItem) :
  In s (_dedupe_sources l limit) ->
  exists pre post, l = (pre ++ s :: post)%list /\
    Forall (fun x => source_key x <> source_key s) pre.
Proof.
  rewrite DedupeFacts.dedupe_sources_firstn. intros Hs.
  apply DedupeFacts.In_firstn in Hs.
  destruct (first_occurrences_first _ _ _ Hs) as [pre [post [E H]]].
  exists pre, post. split; [exact E |].
  apply Forall_forall. intros x Hx. apply H. now apply list_elem_of_In.
Qed.



(* ===================================================================== *)
(** ** Further properties: the providers and the lookup *)
(* ===================================================================== *)

(** X6.  Every source built from a provider's result list has a non-empty
    URL and a non-empty title, and there are no more sources than results:
    results without a URL are skipped, and a missing title is filled in. *)
Theorem provider_items_are_usable (results : list RawResult) :
  Forall (fun s => Text.is_empty (url s) = false /\ Text.is_empty (title s) = false)
         (tavily_items results) /\
  Forall (fun s => Text.is_empty (url s) = false /\ Text.is_empty (title s) = false)
         (duckduckgo_items results) /\
  (length (tavily_items results) <= length results)%nat /\
  (length (duckduckgo_items results) <= length results)%nat.
Proof.
  assert (Hor : forall o d, Text.is_empty d = false -> Text.is_empty (or_str o d) = false).
  { intros [x |] d Hd; simpl; [| exact Hd]. destruct (Text.is_empty x) eqn:E; congruence. }
  induction results as [|r rest (IH1 & IH2 & IH3 & IH4)]; simpl.
  - repeat split; constructor.
  - repeat split.
    + destruct (r_url r) as [u |]; [| exact IH1].
      destruct (Text.is_empty u) eqn:Eu; [exact IH1 |].
      simpl. constructor; [| exact IH1]. simpl. split; [exact Eu |].
      now apply Hor.
    + destruct (or_opt (r_href r) (r_url r)) as [h |]; [| exact IH2].
      destruct (Text.is_empty h) eqn:Eh; [exact IH2 |].
      simpl. constructor; [| exact IH2]. simpl. split; [exact Eh |].
      now apply Hor.
    + destruct (r_url r) as [u |]; [| simpl; lia].
      destruct (Text.is_empty u); simpl; lia.
    + destruct (or_opt (r_href r) (r_url r)) as [h |]; [| simpl; lia].
      destruct (Text.is_empty h); simpl; lia.
Qed.

Section Lookup.

Variable cfg : Settings.
Variable tav : string -> string -> Z -> string + option (list RawResult).
Variable ddg : string -> Z -> string + list RawResult.




(** X9.  Whatever the lookup returns is de-duplicated and named: the
    normalised URLs are pairwise different and non-empty, the identifier is
    one of the two providers', the credentialed provider's answer is never
    empty, and with a limit of at least one there are at most [limit]
    sources. *)
Theorem lookup_result_is_deduplicated (query : string) (max_results : option Z)
    (srcs : list SourceItem) (backend : string) :
  outcome (search_recent_surat_events cfg tav ddg query max_results) = inr (srcs, backend) ->
  NoDup (map source_key srcs) /\
  Forall (fun s => Text.is_empty (source_key s) = false) srcs /\
  ((backend = "tavily" /\ srcs <> []) \/ backend = "duckduckgo") /\
  (1 <= lookup_limit cfg max_results ->
   Z.of_nat (length srcs) <= lookup_limit cfg max_results).
Proof.
  assert (Hd : forall l k,
    NoDup (map source_key (_dedupe_sources l k)) /\
    Forall (fun s => Text.is_empty (source_key s) = false) (_dedupe_sources l k) /\
    (1 <= k -> Z.of_nat (length (_dedupe_sources l k)) <= k)).
  { intros l k. destruct (DedupeFacts.dedupe_sources_keys l k) as [H1 H2].
    split; [exact H1 |]. split; [| apply DedupeFacts.dedupe_sources_length].
    apply Forall_forall. intros s Hs.
    apply TextFacts.is_empty_false, H2. now apply list_elem_of_In. }
  destruct (primary_sources cfg tav query max_results) as [l |] eqn:Hp.
  - rewrite (search_primary_some _ _ _ _ _ _ Hp). intros [= <- <-].
    unfold primary_sources in Hp.
    destruct (truthy (tavily_api_key cfg)); [| discriminate].
    destruct (tav _ _ _) as [what | resp]; [discriminate |].
    destruct (_dedupe_sources _ _) as [|x l'] eqn:E; [discriminate |].
    injection Hp as <-. rewrite <- E.
    destruct (Hd (tavily_items (default [] resp)) (lookup_limit cfg max_results))
      as (H1 & H2 & H3).
    repeat split; try assumption. left. split; [reflexivity | now rewrite E].
  - rewrite (search_primary_none _ _ _ _ _ Hp), search_secondary_outcome.
    destruct (ddg _ _) as [what | rs]; [discriminate |].
    intros [= <- <-].
    destruct (Hd (duckduckgo_items rs) (lookup_limit cfg max_results)) as (H1 & H2 & H3).
    repeat split; try assumption. now right.
Qed.



End Lookup.

(* ===================================================================== *)
(** ** Further properties: the reply generator *)
(* ===================================================================== *)

Lemma append_empty (a b : string) : a ++ b = "" -> a = "" /\ b = "".
Proof. destruct a; simpl; [now intros -> | discriminate]. Qed.

Lemma prompt_lines_length (i : nat) (l : list SourceItem) :
  length (prompt_lines i l) = length l.
Proof. revert i. induction l as [|s l IH]; intros i; simpl; [| rewrite IH]; reflexivity. Qed.

Lemma prompt_lines_occurs (l : list SourceItem) :
  forall i s, In s l ->
    exists line, In line (prompt_lines i l) /\ occurs (url s) line /\ occurs (title s) line.
Proof.
  induction l as [|x l IH]; intros i s; [intros [] |].
  intros [<- | Hs].
  - eexists. split; [left; reflexivity |]. split.
    + do 4 apply occurs_prepend. apply occurs_refl.
    + do 2 apply occurs_prepend. apply occurs_append, occurs_refl.
  - destruct (IH (S i) s Hs) as [line [H1 H2]]. exists line. split; [now right | exact H2].
Qed.

Lemma prompt_lines_nonempty (i : nat) (l : list SourceItem) :
  Forall (fun line => line <> "") (prompt_lines i l).
Proof.
  revert i. induction l as [|y l IH]; intros i; simpl; constructor; [| apply IH].
  intros H. apply append_empty in H as [_ H]. simpl in H. discriminate.
Qed.

Lemma join_empty_parts (sep : string) (parts : list string) :
  Text.join sep parts = "" -> Forall (fun p => p = "") parts.
Proof.
  induction parts as [|p ps IH]; [constructor |].
  destruct ps as [|p' ps'].
  - simpl. intros ->. repeat constructor.
  - change (Text.join sep (p :: p' :: ps')) with (p ++ sep ++ Text.join sep (p' :: ps')).
    intros H. apply append_empty in H as [-> H]. apply append_empty in H as [_ H].
    constructor; [reflexivity | now apply IH].
Qed.

Section Generator.

Variable cfg : Settings.
Variable chat : string -> string -> string -> string -> string + option string.

(** X10.  The prompt sent to the chat client cites every source the
    generator was given: each source's URL and title occur in it, and so
    does the body of the request. *)
Theorem prompt_cites_every_source (body : string) (subject sender_email : option string)
    (srcs : list SourceItem) (intent_label : string) (s : SourceItem) :
  In s srcs ->
  occurs (url s) (user_prompt body subject sender_email srcs intent_label) /\
  occurs (title s) (user_prompt body subject sender_email srcs intent_label) /\
  occurs body (user_prompt body subject sender_email srcs intent_label).
Proof.
  intros Hs.
  destruct (prompt_lines_occurs srcs 1 s Hs) as [line [Hl [Hu Ht]]].
  assert (Hline : occurs line (_format_sources_for_prompt srcs)).
  { apply occurs_str_in, TextFacts.str_in_join. exact Hl. }
  assert (Hblock : Text.is_empty (_format_sources_for_prompt srcs) = false).
  { apply TextFacts.is_empty_false. intros E.
    apply join_empty_parts in E. rewrite Forall_forall in E.
    pose proof (prompt_lines_nonempty 1 srcs) as Hne. rewrite Forall_forall in Hne.
    apply list_elem_of_In in Hl. now apply (Hne line Hl), E. }
  unfold user_prompt. cbv zeta. rewrite Hblock.
  repeat split.
  - do 17 apply occurs_prepend. apply occurs_append.
    now apply occurs_trans with (b := line).
  - do 17 apply occurs_prepend. apply occurs_append.
    now apply occurs_trans with (b := line).
  - do 12 apply occurs_prepend. apply occurs_append, occurs_refl.
Qed.

(** X11.  The generator returns only a stripped, non-empty text together
    with the configured model name, and only when the credential is
    configured; then it has called the chat client exactly once. *)
Theorem generator_returns_stripped_nonempty_text (body : string)
    (subject sender_email : option string) (srcs : list SourceItem) (intent_label : string)
    (text model_name : string) :
  outcome (generate_email_reply cfg chat body subject sender_email srcs intent_label)
    = inr (text, model_name) ->
  Text.is_empty text = false /\ Text.strip text = text /\
  model_name = openai_model cfg /\
  truthy (openai_api_key cfg) = true /\
  events (generate_email_reply cfg chat body subject sender_email srcs intent_label)
    = [EvGenerate body subject sender_email srcs intent_label;
       EvChat (openai_model cfg) system_prompt
         (user_prompt body subject sender_email srcs intent_label)].
Proof.
  unfold generate_email_reply.
  destruct (truthy (openai_api_key cfg)); [| discriminate]. cbn.
  destruct (chat _ _ _ _) as [what | content]; [discriminate |]. cbn.
  destruct (Text.is_empty (Text.strip (or_str content ""))) eqn:E; [discriminate |].
  intros [= <- <-]. repeat split; [exact E |].
  destruct (TextFacts.strip_shape (or_str content "")) as [H | [H1 H2]].
  - apply TextFacts.is_empty_false in E. contradiction.
  - now apply TextFacts.strip_id.
Qed.

(** X12.  The generator raises its configuration error exactly when the
    credential is not configured, and then it has made no call to the chat
    client; with a credential, a failure is the chat client's or its empty
    answer's. *)
Theorem generator_configuration_error_iff_unconfigured (body : string)
    (subject sender_email : option string) (srcs : list SourceItem) (intent_label : string) :
  let run := generate_email_reply cfg chat body subject sender_email srcs intent_label in
  ((exists msg, outcome run = inl (LLMConfigurationError msg))
   <-> truthy (openai_api_key cfg) = false) /\
  (truthy (openai_api_key cfg) = false ->
   run = ([EvGenerate body subject sender_email srcs intent_label],
          inl (LLMConfigurationError llm_not_configured))).
Proof.
  cbv zeta. unfold generate_email_reply.
  destruct (truthy (openai_api_key cfg)); cbn.
  - split; [| discriminate]. split; [| discriminate].
    intros [msg H]. destruct (chat _ _ _ _) as [what | content]; [discriminate |].
    cbn in H. now destruct (Text.is_empty _).
  - split; [| reflexivity]. split; [reflexivity |]. intros _. now eexists.
Qed.

End Generator.

(* ===================================================================== *)
(** ** Further properties: the whitespace normaliser *)
(* ===================================================================== *)

Module Normaliser.
Import Text.

Lemma runs_mono (s : string) :
  forall k k', (k' <= k)%nat -> runs_below_three k s -> runs_below_three k' s.
Proof.
  destruct s as [|c s]; intros k k' Hk; simpl; [trivial |].
  destruct (Ascii.eqb c nl); [| trivial].
  intros [H1 H2]. split; [lia |].
  revert H2. revert k k' Hk H1. induction s as [|d s IH]; intros k k' Hk H1; simpl; [trivial |].
  destruct (Ascii.eqb d nl); [| trivial].
  intros [H2 H3]. split; [lia |]. apply (IH (S k) (S k')); [lia | lia | exact H3].
Qed.

Lemma runs_newlines_app (x : string) :
  no_lead_nl x -> runs_below_three 0 x ->
  forall j k, (k + j <= 2)%nat -> runs_below_three k (newlines j ++ x).
Proof.
  intros Hx Hok. induction j as [|j IH]; intros k Hk; simpl.
  - destruct x as [|c x]; simpl in *; [trivial |].
    apply Ascii.eqb_neq in Hx. rewrite Hx in *. exact Hok.
  - split; [lia |]. apply IH. lia.
Qed.

Lemma emit_run_newlines (r : nat) : exists j, (j <= 2)%nat /\ emit_run r = newlines j.
Proof.
  unfold emit_run. destruct (Nat.leb_spec 3 r); [now exists 2%nat |].
  exists r. split; [lia | reflexivity].
Qed.

Lemma runs_sub_newlines_from (s : string) :
  forall r, runs_below_three 0 (sub_newlines_from r s).
Proof.
  induction s as [|c s IH]; intros r; simpl.
  - destruct (emit_run_newlines r) as [j [Hj ->]].
    rewrite <- (TextFacts.app_empty_r (newlines j)).
    apply runs_newlines_app; [exact I | exact I | lia].
  - destruct (Ascii.eqb c nl) eqn:Ec; [apply IH |].
    destruct (emit_run_newlines r) as [j [Hj ->]].
    apply runs_newlines_app; [| | lia].
    + simpl. now apply Ascii.eqb_neq.
    + simpl. rewrite Ec. apply IH.
Qed.

Lemma runs_tail (c : ascii) (s : string) (k : nat) :
  runs_below_three k (String c s) -> runs_below_three 0 s.
Proof.
  simpl. destruct (Ascii.eqb c nl); [| trivial].
  intros [_ H]. apply (runs_mono s (S k) 0); [lia | exact H].
Qed.

Lemma runs_lstrip (s : string) : runs_below_three 0 s -> runs_below_three 0 (lstrip s).
Proof.
  induction s as [|c s IH]; [trivial |].
  intros H. simpl lstrip. destruct (is_space c); [| exact H].
  apply IH. now apply runs_tail in H.
Qed.

Lemma runs_rstrip (s : string) :
  forall k, runs_below_three k s -> runs_below_three k (rstrip s).
Proof.
  induction s as [|c s IH]; intros k; [trivial |].
  intros H. simpl rstrip.
  destruct (is_space c && is_empty (rstrip s)); [exact I |].
  simpl in *. destruct (Ascii.eqb c nl); [| now apply IH].
  destruct H as [H1 H2]. split; [exact H1 | now apply IH].
Qed.

Lemma runs_no_triple (pre post : string) :
  forall k, runs_below_three k (pre ++ three_newlines ++ post) -> False.
Proof.
  induction pre as [|c pre IH]; intros k.
  - simpl. lia.
  - simpl. destruct (Ascii.eqb c nl); [intros [_ H] | intros H]; now apply IH in H.
Qed.

Lemma newlines_shift (r : nat) (s : string) :
  newlines (S r) ++ s = newlines r ++ String nl s.
Proof. induction r as [|r IH]; [reflexivity |]. simpl in *. now rewrite IH. Qed.

(** On a text without a run of three newlines the substitution is the
    identity. *)
Lemma sub_newlines_from_id (s : string) :
  forall r, (r <= 2)%nat -> runs_below_three r s ->
    sub_newlines_from r s = newlines r ++ s.
Proof.
  induction s as [|c s IH]; intros r Hr; simpl.
  - intros _. unfold emit_run. destruct (Nat.leb_spec 3 r); [lia |].
    now rewrite TextFacts.app_empty_r.
  - destruct (Ascii.eqb c nl) eqn:Ec.
    + intros [H1 H2]. apply Ascii.eqb_eq in Ec. subst c.
      rewrite IH by (lia || exact H2). apply newlines_shift.
    + intros H. rewrite (IH 0%nat) by (lia || exact H).
      unfold emit_run. destruct (Nat.leb_spec 3 r); [lia | reflexivity].
Qed.


Lemma length_lstrip (s : string) : (String.length (lstrip s) <= String.length s)%nat.
Proof. induction s as [|c s IH]; simpl; [lia |]. destruct (is_space c); simpl; lia. Qed.

Lemma length_rstrip (s : string) : (String.length (rstrip s) <= String.length s)%nat.
Proof.
  induction s as [|c s IH]; simpl; [lia |].
  destruct (is_space c && is_empty (rstrip s)); simpl; lia.
Qed.

Lemma length_app_s (a b : string) :
  String.length (a ++ b) = (String.length a + String.length b)%nat.
Proof. induction a as [|c a IH]; simpl; [reflexivity | now rewrite IH]. Qed.

Lemma length_emit_run (r : nat) : (String.length (emit_run r) <= r)%nat.
Proof.
  unfold emit_run. destruct (Nat.leb_spec 3 r); [simpl; lia |].
  induction r as [|r IH]; simpl; [lia |].
  assert (String.length (newlines r) = r) as ->; [| lia].
  clear. induction r as [|r IH]; simpl; [reflexivity | now rewrite IH].
Qed.

Lemma length_sub_newlines_from (s : string) :
  forall r, (String.length (sub_newlines_from r s) <= r + String.length s)%nat.
Proof.
  induction s as [|c s IH]; intros r; simpl.
  - pose proof (length_emit_run r). lia.
  - destruct (Ascii.eqb c nl).
    + specialize (IH (S r)). lia.
    + rewrite length_app_s. simpl. pose proof (length_emit_run r).
      specialize (IH 0%nat). lia.
Qed.

Lemma strip_fixed (s : string) : strip (strip s) = strip s.
Proof.
  destruct (TextFacts.strip_shape s) as [-> | [H1 H2]]; [reflexivity |].
  now apply TextFacts.strip_id.
Qed.

End Normaliser.

(** X13.  The output of [_strip_excess_whitespace] is in normal form: three
    newlines in a row occur nowhere in it, it has no white space at either
    end, and it is never longer than the input. *)
Theorem strip_excess_whitespace_normal_form (s : string) :
  Text.str_in three_newlines (_strip_excess_whitespace s) = false /\
  Text.strip (_strip_excess_whitespace s) = _strip_excess_whitespace s /\
  (String.length (_strip_excess_whitespace s) <= String.length s)%nat.
Proof.
  unfold _strip_excess_whitespace. split; [| split].
  - destruct (Text.str_in _ _) eqn:E; [| reflexivity].
    apply TextFacts.str_in_spec in E. destruct E as [pre [post E]].
    exfalso. apply (Normaliser.runs_no_triple pre post 0). rewrite <- E.
    apply Normaliser.runs_lstrip, Normaliser.runs_rstrip.
    apply Normaliser.runs_sub_newlines_from.
  - apply Normaliser.strip_fixed.
  - unfold Text.strip.
    pose proof (Normaliser.length_lstrip (Text.rstrip (Text.sub_newlines s))).
    pose proof (Normaliser.length_rstrip (Text.sub_newlines s)).
    pose proof (Normaliser.length_sub_newlines_from s 0). unfold Text.sub_newlines in *.
    lia.
Qed.


(** X15.  [_strip_excess_whitespace] is idempotent. *)
Theorem strip_excess_whitespace_idempotent (s : string) :
  _strip_excess_whitespace (_strip_excess_whitespace s) = _strip_excess_whitespace s.
Proof.
  unfold _strip_excess_whitespace at 1.
  assert (Hsub : Text.sub_newlines (_strip_excess_whitespace s) = _strip_excess_whitespace s).
  { unfold Text.sub_newlines.
    rewrite Normaliser.sub_newlines_from_id; [reflexivity | lia |].
    unfold _strip_excess_whitespace, Text.strip.
    apply Normaliser.runs_lstrip, Normaliser.runs_rstrip.
    apply Normaliser.runs_sub_newlines_from. }
  rewrite Hsub. unfold _strip_excess_whitespace. apply Normaliser.strip_fixed.
Qed.

(* ===================================================================== *)
(** ** Further properties: the graph *)
(* ===================================================================== *)

Lemma classifier_label (b : string) :
  In (_basic_intent_classifier b)
     ["cultural_events"; "tech_events"; "sports_events"; "business_events"; "general_events"].
Proof.
  unfold _basic_intent_classifier.
  repeat (destruct (Text.any_in _ _); [simpl; tauto |]). simpl. tauto.
Qed.

Lemma classifier_label_safe (b : string) : _basic_intent_classifier b <> "unsafe_request".
Proof.
  pose proof (classifier_label b) as H. simpl in H.
  intros E. rewrite E in H. repeat (destruct H as [H | H]; [discriminate |]). exact H.
Qed.

(** The dict [node_search] returns. *)
Lemma search_patch_merge (st : GraphState) (l : list SourceItem) (b : string) :
  let p := {| body := None; subject := None; sender_email := None; intent := None;
              sources := Some l; reply_text := None; model := None;
              search_backend := Some b |} in
  merge st p = {| body := body st; subject := subject st; sender_email := sender_email st;
                  intent := intent st; sources := Some l; reply_text := reply_text st;
                  model := model st; search_backend := Some b |}.
Proof. reflexivity. Qed.

Section Graph.

Variable cfg : Settings.
Variable tav : string -> string -> Z -> string + option (list RawResult).
Variable ddg : string -> Z -> string + list RawResult.
Variable chat : string -> string -> string -> string -> string + option string.

(** The query [node_search] builds from state [st]. *)
Lemma node_search_lookup (st : GraphState) :
  node_search cfg tav ddg st
  = let q := intent_query (default "general_events" (intent st))
             ++ ". User request: " ++ Text.take 280 (default "" (body st)) in
    match search_recent_surat_events cfg tav ddg q None with
    | (ev, inl e) => (ev, inl e)
    | (ev, inr (l, b)) =>
        (ev, inr {| body := None; subject := None; sender_email := None; intent := None;
                    sources := Some l; reply_text := None; model := None;
                    search_backend := Some b |})
    end.
Proof.
  unfold node_search. cbv zeta.
  destruct (search_recent_surat_events _ _ _ _ _) as [ev [e | [l b]]]; cbn;
    [reflexivity |].
  now rewrite app_nil_r.
Qed.

Lemma run_from_step (fuel : nat) (n : Node) (st : GraphState) :
  run_from cfg tav ddg chat (S fuel) n st
  = match run_node cfg tav ddg chat n st with
    | (ev, inl e) => (ev, inl e)
    | (ev, inr patch) =>
        match next_node n (merge st patch) with
        | None => (ev, inr (merge st patch))
        | Some n' =>
            let '(ev', r) := run_from cfg tav ddg chat fuel n' (merge st patch) in
            ((ev ++ ev')%list, r)
        end
    end.
Proof.
  simpl run_from. unfold mbind, M_bind, bind.
  destruct (run_node cfg tav ddg chat n st) as [ev [e | patch]]; [reflexivity |].
  destruct (next_node n (merge st patch)); [reflexivity |].
  cbn. now rewrite app_nil_r.
Qed.

Lemma run_node_classify (st : GraphState) :
  run_node cfg tav ddg chat Classify st = ([EvNode Classify], inr (node_classify_intent st)).
Proof. reflexivity. Qed.

Lemma run_node_search (st : GraphState) :
  run_node cfg tav ddg chat Search st
  = let '(ev, r) := node_search cfg tav ddg st in (EvNode Search :: ev, r).
Proof.
  unfold run_node. cbn. now destruct (node_search cfg tav ddg st) as [ev [e | p]].
Qed.

Lemma run_node_synthesize (st : GraphState) :
  run_node cfg tav ddg chat Synthesize st
  = let '(ev, r) := node_synthesize cfg chat st in (EvNode Synthesize :: ev, r).
Proof.
  unfold run_node. cbn. now destruct (node_synthesize cfg chat st) as [ev [e | p]].
Qed.

Lemma run_from_unsafe (st : GraphState) (n : nat) :
  _contains_unsafe_request (default "" (body st)) = true ->
  run_from cfg tav ddg chat (S (S n)) Classify st
  = ([EvNode Classify; EvNode Synthesize],
     inr (merge (merge st unsafe_patch) (reply_patch refusal_reply "none"))).
Proof.
  intros H. rewrite run_from_step, run_node_classify, (classify_unsafe st H).
  cbn [next_node]. change (route_after_classify (merge st unsafe_patch)) with Synthesize.
  rewrite run_from_step, run_node_synthesize. reflexivity.
Qed.

Lemma run_from_safe (st : GraphState) (n : nat) :
  _contains_unsafe_request (default "" (body st)) = false ->
  run_from cfg tav ddg chat (S (S (S n))) Classify st
  = let st1 := merge st (intent_patch (_basic_intent_classifier (default "" (body st)))) in
    match node_search cfg tav ddg st1 with
    | (ev1, inl e) => (EvNode Classify :: EvNode Search :: ev1, inl e)
    | (ev1, inr p) =>
        match node_synthesize cfg chat (merge st1 p) with
        | (ev2, inl e) =>
            ((EvNode Classify :: EvNode Search :: ev1 ++ EvNode Synthesize :: ev2)%list, inl e)
        | (ev2, inr p2) =>
            ((EvNode Classify :: EvNode Search :: ev1 ++ EvNode Synthesize :: ev2)%list,
             inr (merge (merge st1 p) p2))
        end
    end.
Proof.
  intros H. cbv zeta.
  assert (Hroute : route_after_classify
            (merge st (intent_patch (_basic_intent_classifier (default "" (body st)))))
          = Search).
  { unfold route_after_classify. simpl.
    rewrite bool_decide_eq_false_2; [reflexivity |].
    intros [= E]. now apply classifier_label_safe in E. }
  rewrite run_from_step, run_node_classify, (classify_safe st H).
  fold (intent_patch (_basic_intent_classifier (default "" (body st)))).
  cbn [next_node]. rewrite Hroute.
  rewrite run_from_step, run_node_search.
  destruct (node_search cfg tav ddg _) as [ev1 [e | p]]; [reflexivity |].
  cbn [next_node].
  rewrite run_from_step, run_node_synthesize.
  now destruct (node_synthesize cfg chat _) as [ev2 [e | p2]].
Qed.

(** X16.  The run ends within three node steps: with any step budget of at
    least three it is the same run, so the recursion limit of 25 is never
    reached. *)
Theorem run_ends_within_three_steps (st : GraphState) (k : nat) :
  run_from cfg tav ddg chat (3 + k) Classify st = run_from cfg tav ddg chat 3 Classify st /\
  invoke cfg tav ddg chat st = run_from cfg tav ddg chat 3 Classify st.
Proof.
  assert (H : forall n, run_from cfg tav ddg chat (3 + n) Classify st
                        = run_from cfg tav ddg chat 3 Classify st).
  { intros n. destruct (_contains_unsafe_request (default "" (body st))) eqn:E.
    - change (3 + n)%nat with (S (S (S n))). now rewrite !(run_from_unsafe st _ E).
    - change (3 + n)%nat with (S (S (S n))). now rewrite !(run_from_safe st _ E). }
  split; [apply H |]. apply (H 22%nat).
Qed.

(** The query [node_search] sends to the lookup on a safe body. *)
Lemma safe_query (st : GraphState) :
  let b := default "" (body st) in
  let st1 := merge st (intent_patch (_basic_intent_classifier b)) in
  intent_query (default "general_events" (intent st1))
    ++ ". User request: " ++ Text.take 280 (default "" (body st1))
  = intent_query (_basic_intent_classifier b) ++ ". User request: " ++ Text.take 280 b.
Proof. reflexivity. Qed.

(** The outcomes of a run, by cases. *)
Lemma invoke_cases (st : GraphState) :
  let b := default "" (body st) in
  let st1 := merge st (intent_patch (_basic_intent_classifier b)) in
  let q := intent_query (_basic_intent_classifier b)
           ++ ". User request: " ++ Text.take 280 b in
  (_contains_unsafe_request b = true /\
   invoke cfg tav ddg chat st
   = ([EvNode Classify; EvNode Synthesize],
      inr (merge (merge st unsafe_patch) (reply_patch refusal_reply "none")))) \/
  (_contains_unsafe_request b = false /\
   exists ev e,
     search_recent_surat_events cfg tav ddg q None = (ev, inl e) /\
     invoke cfg tav ddg chat st = (EvNode Classify :: EvNode Search :: ev, inl e)) \/
  (_contains_unsafe_request b = false /\
   exists ev l k ev2 r,
     search_recent_surat_events cfg tav ddg q None = (ev, inr (l, k)) /\
     let st2 := {| body := body st; subject := subject st;
                   sender_email := sender_email st;
                   intent := Some (_basic_intent_classifier b); sources := Some l;
                   reply_text := reply_text st; model := model st;
                   search_backend := Some k |} in
     node_synthesize cfg chat st2 = (ev2, r) /\
     invoke cfg tav ddg chat st
     = ((EvNode Classify :: EvNode Search :: ev ++ EvNode Synthesize :: ev2)%list,
        match r with inl e => inl e | inr p2 => inr (merge st2 p2) end)).
Proof.
  cbv zeta. unfold invoke, recursion_limit.
  destruct (_contains_unsafe_request (default "" (body st))) eqn:E.
  - left. split; [reflexivity |]. now apply run_from_unsafe.
  - right. rewrite (run_from_safe st _ E). cbv zeta.
    rewrite node_search_lookup. cbv zeta. rewrite safe_query.
    destruct (search_recent_surat_events _ _ _ _ _) as [ev [e | [l k]]].
    + left. split; [reflexivity |]. now exists ev, e.
    + right. split; [reflexivity |].
      rewrite search_patch_merge.
      cbn [merge intent_patch body subject sender_email intent sources reply_text model
             search_backend].
      destruct (node_synthesize cfg chat _) as [ev2 r] eqn:Es.
      exists ev, l, k, ev2, r. split; [reflexivity |]. split; [exact Es |].
      now destruct r.
Qed.

(** X17.  A run never changes what the request supplied: [body], [subject]
    and [sender_email] of the final state are those of the initial state. *)
Theorem run_preserves_request_fields (st final : GraphState) :
  outcome (invoke cfg tav ddg chat st) = inr final ->
  body final = body st /\ subject final = subject st /\
  sender_email final = sender_email st.
Proof.
  destruct (invoke_cases st) as [[_ ->] | [[_ [ev [e [_ ->]]]] | [_ H]]].
  - intros [= <-]. repeat split.
  - discriminate.
  - destruct H as (ev & l & k & ev2 & r & _ & Hs & ->). cbv zeta in Hs.
    destruct r as [e | p2]; [discriminate |]. intros [= <-].
    assert (Hp : outcome (node_synthesize cfg chat
                   {| body := body st; subject := subject st;
                      sender_email := sender_email st;
                      intent := Some (_basic_intent_classifier (default "" (body st)));
                      sources := Some l; reply_text := reply_text st; model := model st;
                      search_backend := Some k |}) = inr p2) by now rewrite Hs.
    destruct (synthesize_patch_shape _ _ _ _ Hp) as [t [m ->]]. repeat split.
Qed.

Lemma lookup_backend (q : string) (mr : option Z) (l : list SourceItem) (k : string) :
  outcome (search_recent_surat_events cfg tav ddg q mr) = inr (l, k) ->
  k = "tavily" \/ k = "duckduckgo".
Proof.
  destruct (primary_sources cfg tav q mr) as [x |] eqn:Hp.
  - rewrite (search_primary_some _ _ _ _ _ _ Hp). intros [= _ <-]. now left.
  - rewrite (search_primary_none _ _ _ _ _ Hp), search_secondary_outcome.
    destruct (ddg _ _); [discriminate |]. intros [= _ <-]. now right.
Qed.

Lemma synthesize_reply_shape (st p : GraphState) :
  outcome (node_synthesize cfg chat st) = inr p ->
  exists r m, p = reply_patch r m /\ Text.is_empty r = false /\
    (m = default "none" (model st) \/ m = "none" \/ m = openai_model cfg).
Proof.
  destruct (has_refusal st) eqn:Hr.
  - rewrite (synthesize_refusal _ _ st Hr). intros [= <-].
    unfold has_refusal in Hr. apply andb_true_iff in Hr as [_ Ht].
    destruct (reply_text st) as [r |]; [| discriminate].
    exists r, (default "none" (model st)). split; [reflexivity |].
    split; [| now left]. simpl in Ht. now destruct (Text.is_empty r).
  - destruct (default [] (sources st)) as [|x l] eqn:Hs.
    + rewrite (synthesize_no_sources _ _ st Hr Hs). intros [= <-].
      exists insufficient_reply, "none". repeat split. right. now left.
    + assert (Hne : default [] (sources st) <> []) by now rewrite Hs.
      rewrite (synthesize_with_sources _ _ st Hr Hne).
      destruct (negb (truthy (openai_api_key cfg))).
      * intros [= <-]. eexists _, _. split; [reflexivity |].
        split; [| right; now left].
        apply TextFacts.is_empty_false, degraded_reply_nonempty.
      * destruct (chat_answer cfg chat st) as [what | content]; [discriminate |].
        cbv zeta. destruct (Text.is_empty _) eqn:He; [discriminate |].
        intros [= <-]. eexists _, _. split; [reflexivity |].
        split; [| right; now right].
        unfold _strip_excess_whitespace.
        rewrite TextFacts.strip_sub_newlines_strip.
        apply TextFacts.is_empty_false, TextFacts.sub_newlines_strip_nonempty.
        now apply TextFacts.is_empty_false.
Qed.

(** X18.  When a run returns, its final state has every output field set:
    the intent is one of the six labels, the reply text is not empty, the
    generator identifier is ["none"] or the configured model, the sources are
    a list and the search identifier is ["none"], ["tavily"] or
    ["duckduckgo"]. *)
Theorem run_final_state_is_complete (st final : GraphState) :
  outcome (invoke cfg tav ddg chat st) = inr final ->
  exists i r m l k,
    intent final = Some i /\ In i intent_labels /\
    reply_text final = Some r /\ Text.is_empty r = false /\
    model final = Some m /\ (m = "none" \/ m = openai_model cfg) /\
    sources final = Some l /\
    search_backend final = Some k /\ In k ["none"; "tavily"; "duckduckgo"].
Proof.
  destruct (invoke_cases st) as [[_ ->] | [[_ [ev [e [_ ->]]]] | [Hsafe H]]].
  - intros [= <-].
    exists "unsafe_request", refusal_reply, "none", [], "none".
    repeat split; simpl; auto 10.
  - discriminate.
  - destruct H as (ev & l & k & ev2 & r & Hl & Hs & ->). cbv zeta in Hs.
    destruct r as [e | p2]; [discriminate |]. intros [= <-].
    match type of Hs with node_synthesize _ _ ?s = _ => set (st2 := s) in * end.
    assert (Hp : outcome (node_synthesize cfg chat st2) = inr p2) by now rewrite Hs.
    assert (Hrefusal : has_refusal st2 = false).
    { unfold has_refusal, st2. simpl.
      rewrite bool_decide_eq_false_2; [reflexivity |].
      intros [= E]. now apply classifier_label_safe in E. }
    assert (Hk : k = "tavily" \/ k = "duckduckgo").
    { eapply lookup_backend with (mr := None) (l := l). rewrite Hl. reflexivity. }
    pose proof Hrefusal as Hr.
    destruct (synthesize_reply_shape _ _ Hp) as (t & m & -> & Ht & Hm).
    assert (Hm' : m = "none" \/ m = openai_model cfg).
    { destruct Hm as [-> | Hm]; [| exact Hm].
      (* the refusal pass-through is not taken on a safe body *)
      clear Ht. revert Hp. 
      destruct (default [] (sources st2)) as [|x l'] eqn:Hsrc.
      - rewrite (synthesize_no_sources _ _ st2 Hr Hsrc). intros [= _ E]. now left.
      - assert (Hne : default [] (sources st2) <> []) by now rewrite Hsrc.
        rewrite (synthesize_with_sources _ _ st2 Hr Hne).
        destruct (negb (truthy (openai_api_key cfg))); [intros [= _ E]; now left |].
        destruct (chat_answer cfg chat st2); [discriminate |].
        cbv zeta. destruct (Text.is_empty _); [discriminate |].
        intros [= _ E]. now right. }
    exists (_basic_intent_classifier (default "" (body st))), t, m, l, k.
    split; [reflexivity |]. split.
    { pose proof (classifier_label (default "" (body st))) as Hc.
      change intent_labels
        with (["cultural_events"; "tech_events"; "sports_events"; "business_events";
               "general_events"] ++ ["unsafe_request"])%list.
      apply in_or_app. now left. }
    split; [reflexivity |]. split; [exact Ht |]. split; [reflexivity |].
    split; [exact Hm' |]. split; [reflexivity |]. split; [reflexivity |].
    destruct Hk as [-> | ->]; simpl; tauto.
Qed.




End Graph.

(* ===================================================================== *)
(** ** Further properties: the safety gate *)
(* ===================================================================== *)

(** X21.  The safety gate cannot be passed by wrapping: a text that contains
    a flagged text is flagged too. *)
Theorem unsafe_gate_is_monotone (b pre post : string) :
  _contains_unsafe_request b = true ->
  _contains_unsafe_request (pre ++ b ++ post) = true.
Proof.
  unfold _contains_unsafe_request. rewrite !TextFacts.any_in_spec.
  intros [k [Hin Hocc]]. exists k. split; [exact Hin |].
  rewrite !TextFacts.lower_app.
  apply occurs_prepend, occurs_append. exact Hocc.
Qed.

(* ===================================================================== *)
(** ** Further properties: the request boundary *)
(* ===================================================================== *)

Lemma strip_refusal_reply : Text.strip refusal_reply = refusal_reply.
Proof. vm_compute. reflexivity. Qed.

Lemma strip_insufficient_reply : Text.strip insufficient_reply = insufficient_reply.
Proof. vm_compute. reflexivity. Qed.

Lemma strip_degraded_reply (srcs : list SourceItem) :
  Text.strip (degraded_reply srcs) = degraded_reply srcs.
Proof.
  apply TextFacts.strip_id.
  - unfold degraded_reply. simpl. reflexivity.
  - unfold degraded_reply. do 14 apply TextFacts.ends_solid_app. simpl. reflexivity.
Qed.

Lemma or_str_nonempty (o : option string) (d : string) :
  Text.is_empty d = false -> Text.is_empty (or_str o d) = false.
Proof.
  intros Hd. destruct o as [x |]; simpl; [| exact Hd].
  destruct (Text.is_empty x) eqn:E; congruence.
Qed.

Section BoundaryFacts.

Variable cfg : Settings.
Variable tav : string -> string -> Z -> string + option (list RawResult).
Variable ddg : string -> Z -> string + list RawResult.
Variable chat : string -> string -> string -> string -> string + option string.

Lemma synthesize_reply_stripped (st p : GraphState) :
  has_refusal st = false ->
  outcome (node_synthesize cfg chat st) = inr p ->
  exists r m, p = reply_patch r m /\ Text.is_empty r = false /\ Text.strip r = r /\
    (m = "none" \/ m = openai_model cfg).
Proof.
  intros Hr.
  destruct (default [] (sources st)) as [|x l] eqn:Hs.
  - rewrite (synthesize_no_sources _ _ st Hr Hs). intros [= <-].
    exists insufficient_reply, "none".
    split; [reflexivity |]. split; [reflexivity |].
    split; [apply strip_insufficient_reply | now left].
  - assert (Hne : default [] (sources st) <> []) by now rewrite Hs.
    rewrite (synthesize_with_sources _ _ st Hr Hne).
    destruct (negb (truthy (openai_api_key cfg))).
    + intros [= <-]. eexists _, _. split; [reflexivity |].
      split; [apply TextFacts.is_empty_false, degraded_reply_nonempty |].
      split; [apply strip_degraded_reply | now left].
    + destruct (chat_answer cfg chat st) as [what | content]; [discriminate |].
      cbv zeta. destruct (Text.is_empty _) eqn:He; [discriminate |].
      intros [= <-]. eexists _, _. split; [reflexivity |].
      unfold _strip_excess_whitespace. split; [| split; [| now right]].
      * rewrite TextFacts.strip_sub_newlines_strip.
        apply TextFacts.is_empty_false, TextFacts.sub_newlines_strip_nonempty.
        now apply TextFacts.is_empty_false.
      * apply Normaliser.strip_fixed.
Qed.

(** What a run from a request returns when it returns. *)
Lemma request_run_reply (b : string) (subj snd : option string) (ev : list Event)
    (final : GraphState) :
  invoke cfg tav ddg chat (request_state b subj snd) = (ev, inr final) ->
  exists r m l,
    reply_text final = Some r /\ Text.is_empty r = false /\ Text.strip r = r /\
    model final = Some m /\ (m = "none" \/ m = openai_model cfg) /\
    sources final = Some l.
Proof.
  destruct (invoke_cases cfg tav ddg chat (request_state b subj snd))
    as [[_ ->] | [[_ [ev' [e [_ ->]]]] | [Hsafe H]]].
  - intros [= _ <-]. exists refusal_reply, "none", [].
    split; [reflexivity |]. split; [reflexivity |].
    split; [apply strip_refusal_reply |].
    split; [reflexivity |]. split; [now left | reflexivity].
  - discriminate.
  - destruct H as (ev1 & l & k & ev2 & r & Hl & Hs & ->). cbv zeta in Hs.
    destruct r as [e | p2]; [discriminate |]. intros [= _ <-].
    match type of Hs with node_synthesize _ _ ?s = _ => set (st2 := s) in * end.
    assert (Hp : outcome (node_synthesize cfg chat st2) = inr p2) by now rewrite Hs.
    assert (Hr : has_refusal st2 = false).
    { unfold has_refusal, st2. simpl.
      rewrite bool_decide_eq_false_2; [reflexivity |].
      intros [= E]. now apply classifier_label_safe in E. }
    destruct (synthesize_reply_stripped _ _ Hr Hp) as (t & m & -> & H1 & H2 & H3).
    exists t, m, l.
    split; [reflexivity |]. split; [exact H1 |]. split; [exact H2 |].
    split; [reflexivity |]. split; [exact H3 | reflexivity].
Qed.


(** X23.  The reply text of a response is the pipeline's reply text,
    unchanged: it is never empty and already stripped, so neither the
    boundary's [strip] nor its fallback message alters it; the model of the
    response is ["none"] or the configured model name, never empty. *)
Theorem response_carries_the_pipeline_reply (rid : option string) (payload : ReplyRequest)
    (ev : list Event) (resp : ReplyResponse) :
  create_reply cfg tav ddg chat rid payload = (ev, inr resp) ->
  exists final,
    invoke cfg tav ddg chat
      (request_state (rq_body payload) (rq_subject payload) (rq_sender_email payload))
    = (ev, inr final) /\
    reply_text final = Some (rs_reply_text resp) /\
    Text.is_empty (rs_reply_text resp) = false /\
    Text.strip (rs_reply_text resp) = rs_reply_text resp /\
    Text.is_empty (rs_model resp) = false /\
    (rs_model resp = "none" \/ rs_model resp = openai_model cfg).
Proof.
  unfold create_reply. destruct (_ || _); [discriminate |].
  destruct (invoke _ _ _ _ _) as [ev' [e | final]] eqn:Hrun; [discriminate |].
  intros [= <- <-]. exists final. split; [reflexivity |].
  destruct (request_run_reply _ _ _ _ _ Hrun) as (r & m & l & Hr & Hne & Hst & Hm & Hm' & _).
  rewrite Hr, Hm. cbn [rs_reply_text rs_model or_str]. rewrite Hne, Hst, Hne.
  split; [reflexivity |]. split; [exact Hne |]. split; [exact Hst |]. split.
  - destruct (Text.is_empty m) eqn:Em; [reflexivity | exact Em].
  - destruct (Text.is_empty m) eqn:Em; [now left |].
    destruct Hm' as [-> | ->]; [now left | now right].
Qed.

(** X24.  The sources of a response are the first [max_reply_items] sources
    of the final state (none when the setting is zero); with a non-negative
    setting there are at most that many. *)
Theorem response_sources_are_bounded (rid : option string) (payload : ReplyRequest)
    (ev : list Event) (resp : ReplyResponse) :
  0 <= max_reply_items cfg ->
  create_reply cfg tav ddg chat rid payload = (ev, inr resp) ->
  Z.of_nat (length (rs_sources resp)) <= max_reply_items cfg /\
  exists final,
    outcome (invoke cfg tav ddg chat
      (request_state (rq_body payload) (rq_subject payload) (rq_sender_email payload)))
    = inr final /\
    rs_sources resp
    = firstn (Z.to_nat (max_reply_items cfg)) (default [] (sources final)).
Proof.
  intros Hm. unfold create_reply. destruct (_ || _); [discriminate |].
  destruct (invoke _ _ _ _ _) as [ev' [e | final]] eqn:Hrun; [discriminate |].
  intros [= <- <-]. cbn [rs_sources]. unfold slice_to.
  destruct (Z.leb_spec 0 (max_reply_items cfg)); [| lia].
  split; [| now exists final].
  pose proof (firstn_le_length (Z.to_nat (max_reply_items cfg)) (default [] (sources final))).
  lia.
Qed.



(** X26.  A request whose body contains an unsafe marker, in any letter
    case, is answered with the canned refusal, no source and model ["none"],
    after the classify and synthesize nodes only: no provider and no
    generator is called, whatever the configuration. *)
Theorem unsafe_request_is_refused (rid : option string) (payload : ReplyRequest) :
  occurs_nocase unsafe_markers (rq_body payload) ->
  create_reply cfg tav ddg chat rid payload
  = ([EvNode Classify; EvNode Synthesize],
     inr (mkResponse refusal_reply [] "none")).
Proof.
  intros H.
  pose proof (unsafe_marker_survives_strip _ (rq_subject payload)
                (rq_sender_email payload) H) as Hs.
  assert (Hne : Text.is_empty (Text.strip (rq_body payload)) = false).
  { destruct Hs as (k & w & Hin & Hw & pre & post & E). simpl in E.
    apply TextFacts.is_empty_false. intros E0. rewrite E0 in E.
    symmetry in E. apply append_empty in E as [_ E]. apply append_empty in E as [E _].
    subst w. simpl in Hw. subst k.
    unfold unsafe_markers in Hin. simpl in Hin.
    repeat (destruct Hin as [Hin | Hin]; [discriminate |]). exact Hin. }
  unfold create_reply. rewrite Hne, orb_false_r.
  assert (Hb' : Text.is_empty (rq_body payload) = false).
  { destruct (rq_body payload); [discriminate | reflexivity]. }
  rewrite Hb'.
  apply occurs_nocase_any_in in Hs.
  fold (_contains_unsafe_request
          (default "" (body (request_state (rq_body payload) (rq_subject payload)
                               (rq_sender_email payload))))) in Hs.
  unfold invoke, recursion_limit. rewrite (run_from_unsafe _ _ _ _ _ _ Hs).
  set (final := merge (merge _ unsafe_patch) (reply_patch refusal_reply "none")).
  change (default [] (sources final)) with (@nil SourceItem).
  change (or_str (reply_text final) "") with refusal_reply.
  change (or_str (model final) "none") with "none".
  rewrite strip_refusal_reply.
  change (Text.is_empty refusal_reply) with false. cbv iota.
  unfold slice_to. destruct (0 <=? max_reply_items cfg); now rewrite ?firstn_nil.
Qed.

End BoundaryFacts.

(* ===================================================================== *)
(** ** Further properties: the error handlers *)
(* ===================================================================== *)

Lemma model_dump_lookup (e : ErrorResponse) :
  model_dump e !! "error" = Some (Some (error e)) /\
  model_dump e !! "message" = Some (Some (message e)) /\
  model_dump e !! "request_id" = Some (request_id e).
Proof. unfold model_dump. repeat split; now simplify_map_eq. Qed.

Section HandlerFacts.

Variable cfg : Settings.
Variable tav : string -> string -> Z -> string + option (list RawResult).
Variable ddg : string -> Z -> string + list RawResult.
Variable chat : string -> string -> string -> string -> string + option string.
Variable dict_repr : JsonObject -> string.

Lemma handler_on_dump (rid : option string) (status : Z) (e : ErrorResponse) :
  http_exception_handler dict_repr rid (mkHTTP status (DetailDict (model_dump e)))
  = (status, model_dump e).
Proof.
  unfold http_exception_handler. cbn [detail status_code].
  destruct (model_dump_lookup e) as (H1 & H2 & H3). rewrite H1, H2, H3.
  rewrite !bool_decide_eq_true_2 by eauto. reflexivity.
Qed.

(** X27.  Every exception [create_reply] raises reaches the client as it
    was raised: the handler answers with the same status, 400 or 500, and
    with the error object of the exception, unchanged, whose request id is
    the request's and whose message is not empty. *)
Theorem handler_passes_boundary_errors (rid : option string) (payload : ReplyRequest)
    (ev : list Event) (exc : HTTPException) :
  create_reply cfg tav ddg chat rid payload = (ev, inl exc) ->
  exists err,
    detail exc = DetailDict (model_dump err) /\
    http_exception_handler dict_repr rid exc = (status_code exc, model_dump err) /\
    (status_code exc = 400 \/ status_code exc = 500) /\
    request_id err = rid /\
    Text.is_empty (message err) = false.
Proof.
  unfold create_reply. destruct (_ || _).
  - intros [= _ <-]. eexists. split; [reflexivity |].
    split; [apply handler_on_dump |]. split; [now left |]. split; reflexivity.
  - destruct (invoke _ _ _ _ _) as [ev' [e | final]]; [| discriminate].
    intros [= _ <-]. eexists. split; [reflexivity |].
    split; [apply handler_on_dump |]. split; [now right |]. split; [reflexivity |].
    cbn [message]. now destruct (Text.is_empty (exn_message e)) eqn:E.
Qed.

(** X28.  Whatever exception it is given, the handler keeps the status and
    answers with an object that has the keys [error], [message] and
    [request_id]; so does the handler of unexpected exceptions, with status
    500. *)
Theorem error_bodies_have_the_three_keys (rid : option string) (exc : HTTPException) :
  let has_keys (o : JsonObject) :=
    is_Some (o !! "error") /\ is_Some (o !! "message") /\ is_Some (o !! "request_id") in
  fst (http_exception_handler dict_repr rid exc) = status_code exc /\
  has_keys (snd (http_exception_handler dict_repr rid exc)) /\
  fst (unhandled_exception_handler rid) = 500 /\
  has_keys (snd (unhandled_exception_handler rid)).
Proof.
  cbv zeta.
  assert (Hdump : forall e, is_Some (model_dump e !! "error") /\
                            is_Some (model_dump e !! "message") /\
                            is_Some (model_dump e !! "request_id")).
  { intros e. destruct (model_dump_lookup e) as (H1 & H2 & H3).
    rewrite H1, H2, H3. eauto. }
  split; [| split; [| split; [reflexivity | apply Hdump]]].
  - unfold http_exception_handler. destruct (detail exc) as [d | t]; [| reflexivity].
    now destruct (_ && _).
  - unfold http_exception_handler. destruct (detail exc) as [d | t]; [| apply Hdump].
    destruct (bool_decide (is_Some (d !! "error"))) eqn:E1; [| apply Hdump].
    destruct (bool_decide (is_Some (d !! "message"))) eqn:E2; [| apply Hdump].
    apply bool_decide_eq_true_1 in E1, E2. cbn [andb snd].
    destruct (d !! "request_id") as [x |] eqn:E3.
    + rewrite E3. eauto.
    + rewrite !lookup_insert_ne by discriminate. rewrite lookup_insert_eq. eauto.
Qed.

End HandlerFacts.

(* ===================================================================== *)
(** ** Further properties: the configuration helpers *)
(* ===================================================================== *)

Module CsvFacts.
Import Text.

Lemma comma_free_lstrip (s : string) : comma_free s -> comma_free (lstrip s).
Proof.
  induction s as [|c s IH]; [trivial |]. intros [H1 H2]. simpl lstrip.
  destruct (is_space c); [now apply IH | now split].
Qed.

Lemma comma_free_rstrip (s : string) : comma_free s -> comma_free (rstrip s).
Proof.
  induction s as [|c s IH]; [trivial |]. intros [H1 H2]. simpl rstrip.
  destruct (is_space c && is_empty (rstrip s)); [exact I |]. split; [exact H1 | now apply IH].
Qed.

Lemma split_on_nonempty (sep : ascii) (s : string) : split_on sep s <> [].
Proof.
  induction s as [|c s IH]; simpl; [discriminate |].
  destruct (Ascii.eqb c sep); [discriminate |].
  destruct (split_on sep s); [contradiction | discriminate].
Qed.

Lemma split_on_comma_free (s : string) : Forall comma_free (split_on comma s).
Proof.
  induction s as [|c s IH]; simpl; [repeat constructor |].
  destruct (Ascii.eqb c comma) eqn:Ec; [constructor; [exact I | exact IH] |].
  destruct (split_on comma s) as [|p ps]; [repeat constructor; now apply Ascii.eqb_neq |].
  apply Forall_cons in IH as [Hp Hps]. constructor; [| exact Hps].
  split; [now apply Ascii.eqb_neq | exact Hp].
Qed.




End CsvFacts.




(** X29.  An unset list setting gives the default; a set one gives only
    items that are not empty, are stripped and contain no comma, so a value
    of commas and blanks gives the empty list, not the default. *)
Theorem get_list_csv_items_are_clean (env : gmap string string) (name : string)
    (default : list string) :
  match env !! name with
  | None => _get_list_csv env name default = default
  | Some _ =>
      Forall (fun it => Text.is_empty it = false /\ Text.strip it = it /\ comma_free it)
             (_get_list_csv env name default)
  end.
Proof.
  unfold _get_list_csv. destruct (env !! name) as [v |]; [| reflexivity].
  pose proof (CsvFacts.split_on_comma_free v) as Hs.
  induction (split_on comma v) as [|p ps IH]; [constructor |].
  apply Forall_cons in Hs as [Hp Hps]. cbn [map List.filter].
  destruct (Text.is_empty (Text.strip p)) eqn:E; cbn [negb]; [now apply IH |].
  constructor; [| now apply IH].
  split; [exact E |]. split; [apply Normaliser.strip_fixed |].
  unfold Text.strip. now apply CsvFacts.comma_free_lstrip, CsvFacts.comma_free_rstrip.
Qed.


(* ===================================================================== *)
(** ** The further properties on concrete inputs *)
(* ===================================================================== *)

Import MoreSamples.

Lemma dedupe_keeps_first_occurrence_witness :
  exists pre post,
    with_duplicate = (pre ++ src_c :: post)%list /\
    Forall (fun x => source_key x <> source_key src_c) pre.
Proof.
  apply (dedupe_keeps_first_occurrence with_duplicate 5 src_c).
  vm_compute. auto.
Defined.





Lemma lookup_result_is_deduplicated_witness :
  NoDup (map source_key
           [mkSource "Surat Garba Night" "https://events.example/garba";
            mkSource "https://events.example/expo" "https://events.example/expo"]).
Proof.
  apply (lookup_result_is_deduplicated cfg_keys tav_down ddg_two "tech meetups" None
           [mkSource "Surat Garba Night" "https://events.example/garba";
            mkSource "https://events.example/expo" "https://events.example/expo"]
           "duckduckgo").
  vm_compute. reflexivity.
Defined.

Lemma prompt_cites_every_source_witness :
  occurs "https://five.example/e"
    (user_prompt "Any tech meetups?" None None five_sources "tech_events").
Proof.
  apply (prompt_cites_every_source "Any tech meetups?" None None five_sources
           "tech_events" (mkSource "Five" "https://five.example/e")).
  simpl. auto 10.
Defined.

Lemma generator_returns_stripped_nonempty_text_witness :
  Text.is_empty "Hello there." = false /\ Text.strip "Hello there." = "Hello there.".
Proof.
  destruct (generator_returns_stripped_nonempty_text cfg_keys (chat_says "  Hello there. ")
              "Any tech meetups?" None None five_sources "tech_events"
              "Hello there." "gpt-4o-mini") as (H1 & H2 & _).
  - vm_compute. reflexivity.
  - split; assumption.
Defined.

Lemma generator_configuration_error_iff_unconfigured_witness :
  generate_email_reply cfg_no_keys chat_down "Any tech meetups?" None None five_sources
    "tech_events"
  = ([EvGenerate "Any tech meetups?" None None five_sources "tech_events"],
     inl (LLMConfigurationError llm_not_configured)).
Proof.
  apply (proj2 (generator_configuration_error_iff_unconfigured cfg_no_keys chat_down
                  "Any tech meetups?" None None five_sources "tech_events")).
  reflexivity.
Defined.


Lemma run_preserves_request_fields_witness :
  body final_unsafe = Some "Where to BUY Drugs in Surat?" /\
  subject final_unsafe = Some None /\
  sender_email final_unsafe = Some (Some "someone@example.com").
Proof.
  apply (run_preserves_request_fields cfg_keys tav_down ddg_two chat_down
           (request_state (rq_body unsafe_request) (rq_subject unsafe_request)
              (rq_sender_email unsafe_request))
           final_unsafe).
  vm_compute. reflexivity.
Defined.

Lemma run_final_state_is_complete_witness :
  exists i r m l k,
    intent final_no_sources = Some i /\ In i intent_labels /\
    reply_text final_no_sources = Some r /\ Text.is_empty r = false /\
    model final_no_sources = Some m /\ (m = "none" \/ m = openai_model cfg_keys) /\
    sources final_no_sources = Some l /\
    search_backend final_no_sources = Some k /\ In k ["none"; "tavily"; "duckduckgo"].
Proof.
  apply (run_final_state_is_complete cfg_keys tav_empty ddg_empty chat_down
           (request_state (rq_body tech_request) None None) final_no_sources).
  vm_compute. reflexivity.
Defined.



Lemma unsafe_gate_is_monotone_witness :
  _contains_unsafe_request ("how to " ++ "Kill" ++ " time in Surat") = true.
Proof.
  apply (unsafe_gate_is_monotone "Kill" "how to " " time in Surat"). reflexivity.
Defined.


Lemma response_carries_the_pipeline_reply_witness :
  exists final,
    invoke cfg_keys tav_down ddg_two chat_down
      (request_state (rq_body unsafe_request) (rq_subject unsafe_request)
         (rq_sender_email unsafe_request))
    = ([EvNode Classify; EvNode Synthesize], inr final) /\
    reply_text final = Some refusal_reply.
Proof.
  destruct (response_carries_the_pipeline_reply cfg_keys tav_down ddg_two chat_down None
              unsafe_request [EvNode Classify; EvNode Synthesize]
              (mkResponse refusal_reply [] "none"))
    as (final & H1 & H2 & _).
  - vm_compute. reflexivity.
  - exists final. split; assumption.
Defined.

Lemma response_sources_are_bounded_witness :
  Z.of_nat (length [mkSource "Garba Night" "https://events.example/garba";
                    mkSource "Textile Expo" "https://events.example/expo"]) <= 2 /\
  exists final,
    outcome (invoke cfg_two_items tav_down ddg_three chat_down
               (request_state (rq_body tech_request) None None)) = inr final /\
    [mkSource "Garba Night" "https://events.example/garba";
     mkSource "Textile Expo" "https://events.example/expo"]
    = firstn 2 (default [] (sources final)).
Proof.
  apply (response_sources_are_bounded cfg_two_items tav_down ddg_three chat_down None
           tech_request
           (fst (create_reply cfg_two_items tav_down ddg_three chat_down None tech_request))
           (mkResponse (degraded_reply three_sources)
              [mkSource "Garba Night" "https://events.example/garba";
               mkSource "Textile Expo" "https://events.example/expo"]
              "none")).
  - simpl. lia.
  - vm_compute. reflexivity.
Defined.


Lemma unsafe_request_is_refused_witness :
  create_reply cfg_keys tav_down ddg_two chat_down None unsafe_request
  = ([EvNode Classify; EvNode Synthesize], inr (mkResponse refusal_reply [] "none")).
Proof.
  apply (unsafe_request_is_refused cfg_keys tav_down ddg_two chat_down None unsafe_request).
  exists "buy drugs", "BUY Drugs". split; [simpl; auto |]. split; [reflexivity |].
  exists " Where to ", " in Surat? ". reflexivity.
Defined.

Lemma handler_passes_boundary_errors_witness :
  exists err,
    http_exception_handler no_repr (Some "req-1")
      (mkHTTP 400 (DetailDict (model_dump
         (mkError "validation_error" "Field 'body' must be a non-empty string."
            (Some "req-1")))))
    = (400, model_dump err) /\
    request_id err = Some "req-1".
Proof.
  destruct (handler_passes_boundary_errors cfg_keys tav_down ddg_two chat_down no_repr
              (Some "req-1") blank_request []
              (mkHTTP 400 (DetailDict (model_dump
                 (mkError "validation_error" "Field 'body' must be a non-empty string."
                    (Some "req-1"))))))
    as (err & _ & H1 & _ & H2 & _).
  - reflexivity.
  - exists err. split; assumption.
Defined.



